(** * Chonky: the special-action interpreter and the file-action registry

    A shallow embedding of
    - [useSpecialActionDispatcher] and [useSpecialFileActionHandlerMap]
      (the special-actions hook file), and
    - the [fileActionMap] construction of [useFileActions]
      (src/util/file-actions.ts).

    The handlers are imperative callbacks: they read and write a React ref,
    dispatch Redux actions, call the file-action dispatcher of the host and
    write to the logger.  They are embedded in a state-and-exception monad
    [M] over a record [World] that holds exactly these four things. *)

From Stdlib Require Import ZArith.
From stdpp Require Import gmap strings list fin_maps.

Open Scope Z_scope.

(** ** Data *)

Definition Nullable (A : Type) : Type := option A.

(** Modelled from the spec: the file type ([files.types]) is not among the
    sources.  A file has an identity [id] and the capability-relevant
    attributes the spec lists: selectable, openable, draggable. *)
Module FileData.
Record t : Type := mk {
  id : string;
  selectable : bool;
  openable : bool;
  draggable : bool
}.

#[global] Instance eq_dec : EqDecision t.
Proof. solve_decision. Defined.
End FileData.

(** [FileArray]: every element is a file or [null] (a loading placeholder). *)
Definition FileArray : Type := list (Nullable FileData.t).

(** Modelled from the spec: [FileHelper] (util/file-helper) is not among the
    sources.  The capability queries are pure and total over nullable input,
    and [null] gives [false]. *)
Module FileHelper.
Definition isSelectable (file : Nullable FileData.t) : bool :=
  match file with Some f => FileData.selectable f | None => false end.
Definition isOpenable (file : Nullable FileData.t) : bool :=
  match file with Some f => FileData.openable f | None => false end.
Definition isDraggable (file : Nullable FileData.t) : bool :=
  match file with Some f => FileData.draggable f | None => false end.
End FileHelper.

(** An action definition, as far as the sources read it: [action.id]
    (file-actions.ts), [action.name] (the toolbar button group) and
    [action.requiresSelection] ([useFileActionModifiers]). *)
Module FileAction.
Record t : Type := mk {
  id : string;
  name : string;
  requiresSelection : bool
}.
End FileAction.

(** The semantic action handed to the file-action dispatcher:
    [{ actionId, target, files }]. *)
Record FileActionData : Type := mkFileActionData {
  fa_actionId : string;
  fa_target : FileData.t;
  fa_files : list FileData.t
}.

(** The three built-in actions the handlers name.  Their definitions
    (util/file-actions-definitions) are not among the sources, so they are
    taken as a parameter of the development. *)
Record ChonkyActionsT : Type := mkChonkyActions {
  OpenFiles : FileAction.t;
  DuplicateFilesTo : FileAction.t;
  MoveFilesTo : FileAction.t
}.

(** ** The special actions (types/special-actions.types, as the handlers use
    them) *)

Module SpecialAction.
Inductive t : Type :=
  | MouseClickFile
  | KeyboardClickFile
  | OpenParentFolder
  | OpenFolderChainFolder
  | DragNDropStart
  | DragNDropEnd.
End SpecialAction.

Inductive ClickType : Type := single | double.

Record SpecialFileMouseClickAction : Type := mkMouseClick {
  mc_clickType : ClickType;
  mc_file : FileData.t;
  mc_fileDisplayIndex : Z;
  mc_ctrlKey : bool;
  mc_shiftKey : bool
}.

Record SpecialFileKeyboardClickAction : Type := mkKeyboardClick {
  kc_file : FileData.t;
  kc_fileDisplayIndex : Z;
  kc_enterKey : bool;
  kc_spaceKey : bool;
  kc_ctrlKey : bool
}.

Record SpecialOpenFolderChainFolderAction : Type := mkOpenFolderChainFolder {
  oc_file : FileData.t
}.

Record SpecialDragNDropStartAction : Type := mkDragNDropStart {
  ds_dragSource : FileData.t
}.

Record SpecialDragNDropEndAction : Type := mkDragNDropEnd {
  de_dragSource : FileData.t;
  de_dropTarget : FileData.t;
  de_dropEffect : string
}.

(** The union [SpecialActionData]; the constructor is the [actionId] tag. *)
Inductive SpecialActionData : Type :=
| MouseClickFileData (data : SpecialFileMouseClickAction)
| KeyboardClickFileData (data : SpecialFileKeyboardClickAction)
| OpenParentFolderData
| OpenFolderChainFolderData (data : SpecialOpenFolderChainFolderAction)
| DragNDropStartData (data : SpecialDragNDropStartAction)
| DragNDropEndData (data : SpecialDragNDropEndAction).

Definition actionId (actionData : SpecialActionData) : SpecialAction.t :=
  match actionData with
  | MouseClickFileData _ => SpecialAction.MouseClickFile
  | KeyboardClickFileData _ => SpecialAction.KeyboardClickFile
  | OpenParentFolderData => SpecialAction.OpenParentFolder
  | OpenFolderChainFolderData _ => SpecialAction.OpenFolderChainFolder
  | DragNDropStartData _ => SpecialAction.DragNDropStart
  | DragNDropEndData _ => SpecialAction.DragNDropEnd
  end.

(** ** The Redux store *)

(** Modelled from the spec: the root state (redux/reducers) is not among the
    sources.  It holds the supplied file sequence, the view that turns it
    into the rendered sequence (the supplied files, possibly filtered and
    sorted; it is recomputed from the files at each render), the ids that
    are selected, the selection-disabled flag of the configuration
    ([FileBrowserProps.disableSelection]) and the parent folder. *)
Record RootState : Type := mkRootState {
  rawFiles : FileArray;
  displayView : FileArray → FileArray;
  selectedIds : gset string;
  disableSelection : bool;
  parentFolder : Nullable FileData.t
}.

(** Modelled from the spec: the rendered sequence; the display index of a
    file is its position in it. *)
Definition displayFiles (state : RootState) : FileArray :=
  displayView state (rawFiles state).

(** Modelled from the spec: the selection the rest of the code reads.  With
    the selection disabled it is empty, whatever the store holds:
    [disableSelection] is documented so in [FileBrowserProps] (handlers that
    depend on file selections always get empty file selections). *)
Definition selectionMap (state : RootState) : gset string :=
  if disableSelection state then ∅ else selectedIds state.

(** The actions of the store: the four [reduxActions] the handlers build,
    with their payloads, and the replacement of the file sequence, which the
    host triggers when it supplies new files. *)
Module reduxActions.
Inductive t : Type :=
  | toggleSelection (fileId : string) (exclusive : bool)
  | selectRange (rangeStart rangeEnd : Z)
  | selectFiles (fileIds : list string) (reset : bool)
  | clearSelection
  | setRawFiles (files : FileArray).
End reduxActions.

(** Modelled from the spec: helpers of the reducers, which are not among the
    sources.  [idsInRange] gives the ids of the files of a sequence whose
    position lies in [lo, hi], the first file of [files] being at position
    [index]; the reducer applies it to the rendered sequence. *)
Fixpoint idsInRange (files : FileArray) (index lo hi : Z) : list string :=
  match files with
  | [] => []
  | file :: rest =>
      let tail := idsInRange rest (index + 1) lo hi in
      match file with
      | Some f =>
          if bool_decide (lo ≤ index ≤ hi) then FileData.id f :: tail else tail
      | None => tail
      end
  end.

(** Modelled from the spec: the file of the sequence with the given id, if
    any (an unknown id matches no file). *)
Definition findFile (files : FileArray) (fileId : string) : Nullable FileData.t :=
  mjoin (List.find (λ file,
    match file with
    | Some f => bool_decide (FileData.id f = fileId)
    | None => false
    end) files).

(** Modelled from the spec: an id is known when a file of the sequence
    bears it. *)
Definition isKnownFileId (files : FileArray) (fileId : string) : bool :=
  match findFile files fileId with Some _ => true | None => false end.

Definition existsAndSelectable (files : FileArray) (fileId : string) : bool :=
  FileHelper.isSelectable (findFile files fileId).

Definition fileIdsOf (files : FileArray) : list string :=
  omap (λ file, FileData.id <$> file) files.

Definition withSelectedIds (state : RootState) (selection : gset string) : RootState :=
  mkRootState (rawFiles state) (displayView state) selection
              (disableSelection state) (parentFolder state).

(** Modelled from the spec: the reducers (redux/reducers) are not among the
    sources; these are the Selection Store operations of the spec, word for
    word.  With the selection disabled every operation on the selection is
    a no-op, and so is an operation on an id that no file of the sequence
    bears.  [toggleSelection] replaces the selection by the file when
    exclusive, and flips the file's membership when not; [selectRange]
    replaces the selection by the files whose display index lies between
    the two bounds; [selectFiles] keeps the ids that exist and are
    selectable, and replaces the selection by them or unions them in;
    [clearSelection] empties the selection; the replacement of the file
    sequence drops the selected ids that are no longer present. *)
Definition rootReducer (state : RootState) (action : reduxActions.t) : RootState :=
  match action with
  | reduxActions.toggleSelection fileId exclusive =>
      if disableSelection state then state
      else if negb (isKnownFileId (rawFiles state) fileId) then state
      else if exclusive then withSelectedIds state {[ fileId ]}
      else if bool_decide (fileId ∈ selectedIds state)
           then withSelectedIds state (selectedIds state ∖ {[ fileId ]})
           else withSelectedIds state (selectedIds state ∪ {[ fileId ]})
  | reduxActions.selectRange rangeStart rangeEnd =>
      if disableSelection state then state
      else withSelectedIds state
             (list_to_set (idsInRange (displayFiles state) 0
                             (Z.min rangeStart rangeEnd) (Z.max rangeStart rangeEnd)))
  | reduxActions.selectFiles fileIds reset =>
      if disableSelection state then state
      else
        let known := List.filter (existsAndSelectable (rawFiles state)) fileIds in
        if reset
        then withSelectedIds state (list_to_set known)
        else withSelectedIds state (selectedIds state ∪ list_to_set known)
  | reduxActions.clearSelection =>
      if disableSelection state then state
      else withSelectedIds state ∅
  | reduxActions.setRawFiles files =>
      mkRootState files (displayView state)
        (selectedIds state ∩ list_to_set (fileIdsOf files))
        (disableSelection state) (parentFolder state)
  end.

(** Modelled from the spec: the selectors (redux/selectors) are not among
    the sources.  [getIsFileSelected] is the query isSelected, and
    [getSelectedFiles] returns the selected files on which all the given
    predicates hold, in the order of the file sequence. *)
Definition getIsFileSelected (state : RootState) (file : Nullable FileData.t) : bool :=
  match file with
  | Some f => bool_decide (FileData.id f ∈ selectionMap state)
  | None => false
  end.

Definition getSelectedFiles (state : RootState)
    (filters : list (Nullable FileData.t → bool)) : list FileData.t :=
  omap (λ file,
    match file with
    | Some f =>
        if bool_decide (FileData.id f ∈ selectionMap state)
           && forallb (λ filter, filter (Some f)) filters
        then Some f else None
    | None => None
    end) (rawFiles state).

Definition selectSelectionSize (state : RootState) : nat := size (selectionMap state).
Definition selectParentFolder (state : RootState) : Nullable FileData.t := parentFolder state.
Definition selectRawFiles (state : RootState) : FileArray := rawFiles state.

(** ** The world of one browser instance *)

(** A thrown JavaScript value. *)
Definition Error : Type := string.

(** How a call ends: it returns a value or it throws. *)
Inductive Outcome (A : Type) : Type :=
| Returned (a : A)
| Threw (error : Error).
Arguments Returned {A} a.
Arguments Threw {A} error.

(** Modelled from the spec: the logger (util/logger) is not among the
    sources; a call writes one entry at its level.  The messages of the
    source are template strings over the action id, the action data and the
    caught error; they are kept as structured values. *)
Module Logger.
Inductive Level : Type := debug | warn | error.

Inductive Message : Type :=
  | SpecialActionRequest (actionData : SpecialActionData)
  | HandlerThrew (actionId : SpecialAction.t) (err : Error)
  | NoInternalHandler (actionId : SpecialAction.t)
  | ParentFolderNotOpenable
  | ErrorInside (displayName : string) (err : Error).

Definition Entry : Type := (Level * Message)%type.
End Logger.

(** [store] is the Redux store, [lastClickDisplayIndexRef] the ref of line
    80, [dispatchedFileActions] the calls made to
    [dispatchFileActionRef.current], oldest first, and [console] the
    logger's output, oldest first. *)
Record World : Type := mkWorld {
  store : RootState;
  lastClickDisplayIndexRef : Nullable Z;
  dispatchedFileActions : list FileActionData;
  console : list Logger.Entry
}.

(** State threaded through a call that may throw; the world at the moment
    of the throw is kept, as a JavaScript exception does not undo writes. *)
Definition M (A : Type) : Type := World → World * Outcome A.

#[global] Instance M_ret : MRet M := λ A a w, (w, Returned a).
#[global] Instance M_bind : MBind M := λ A B k m w,
  match m w with
  | (w', Returned a) => k a w'
  | (w', Threw e) => (w', Threw e)
  end.

(** [try { body } catch (error) { handler(error) }] *)
Definition tryCatch {A : Type} (body : M A) (handler : Error → M A) : M A :=
  λ w, match body w with
       | (w', Returned a) => (w', Returned a)
       | (w', Threw e) => handler e w'
       end.

Definition getState : M RootState := λ w, (w, Returned (store w)).

(** [dispatch(action)]: the store's state becomes the reducer's result. *)
Definition dispatch (action : reduxActions.t) : M unit := λ w,
  (mkWorld (rootReducer (store w) action) (lastClickDisplayIndexRef w)
           (dispatchedFileActions w) (console w), Returned tt).

Definition readLastClickDisplayIndex : M (Nullable Z) :=
  λ w, (w, Returned (lastClickDisplayIndexRef w)).

Definition writeLastClickDisplayIndex (value : Nullable Z) : M unit := λ w,
  (mkWorld (store w) value (dispatchedFileActions w) (console w), Returned tt).

Definition log (level : Logger.Level) (message : Logger.Message) : M unit := λ w,
  (mkWorld (store w) (lastClickDisplayIndexRef w) (dispatchedFileActions w)
           (console w ++ [(level, message)]), Returned tt).

(** ** [useSpecialFileActionHandlerMap] *)

Section Interpreter.

Variable ChonkyActions : ChonkyActionsT.

(** The file-action dispatcher held by the store
    ([selectFileActionDispatcher]) leads to the host's callback, which is
    outside this code: all that is known of a call is whether it returns or
    throws.  The Selection Store and the last-click index are written by
    the interpreter only. *)
Variable hostFileActionDispatcher : FileActionData → Outcome unit.

(** [dispatchFileActionRef.current(action)] *)
Definition dispatchFileAction (action : FileActionData) : M unit := λ w,
  (mkWorld (store w) (lastClickDisplayIndexRef w)
           (dispatchedFileActions w ++ [action]) (console w),
   hostFileActionDispatcher action).

(** [selectionSizeRef.current] and [parentFolderRef.current]: instance
    variables that hold the selector's value of the latest render, which is
    the value in the store when an event is handled. *)
Definition selectionSizeRef : M nat := λ w, (w, Returned (selectSelectionSize (store w))).
Definition parentFolderRef : M (Nullable FileData.t) :=
  λ w, (w, Returned (selectParentFolder (store w))).

(** Lines 90-155. *)
Definition onMouseClickFile (data : SpecialFileMouseClickAction) : M unit :=
  match mc_clickType data with
  | double =>
      if FileHelper.isOpenable (Some (mc_file data)) then
        dispatchFileAction
          {| fa_actionId := FileAction.id (OpenFiles ChonkyActions);
             fa_target := mc_file data;
             fa_files := [mc_file data] |}
      else mret tt
  | single =>
      if FileHelper.isSelectable (Some (mc_file data)) then
        if mc_ctrlKey data then
          dispatch (reduxActions.toggleSelection
                      (FileData.id (mc_file data)) false);;
          writeLastClickDisplayIndex (Some (mc_fileDisplayIndex data))
        else if mc_shiftKey data then
          lastClick ← readLastClickDisplayIndex;
          match lastClick with
          | Some lastClickDisplayIndex =>
              let rangeStart := lastClickDisplayIndex in
              let rangeEnd := mc_fileDisplayIndex data in
              let '(rangeStart, rangeEnd) :=
                if rangeStart >? rangeEnd
                then (rangeEnd, rangeStart)
                else (rangeStart, rangeEnd) in
              dispatch (reduxActions.selectRange rangeStart rangeEnd)
          | None =>
              dispatch (reduxActions.toggleSelection
                          (FileData.id (mc_file data)) false);;
              writeLastClickDisplayIndex (Some (mc_fileDisplayIndex data))
          end
        else
          dispatch (reduxActions.toggleSelection
                      (FileData.id (mc_file data)) true);;
          writeLastClickDisplayIndex (Some (mc_fileDisplayIndex data))
      else
        (if negb (mc_ctrlKey data)
         then dispatch reduxActions.clearSelection
         else mret tt);;
        writeLastClickDisplayIndex (Some (mc_fileDisplayIndex data))
  end.

(** Lines 156-179. *)
Definition onKeyboardClickFile (data : SpecialFileKeyboardClickAction) : M unit :=
  writeLastClickDisplayIndex (Some (kc_fileDisplayIndex data));;
  if kc_enterKey data then
    selectionSize ← selectionSizeRef;
    if bool_decide (selectionSize = 0%nat) then
      dispatchFileAction
        {| fa_actionId := FileAction.id (OpenFiles ChonkyActions);
           fa_target := kc_file data;
           fa_files := [kc_file data] |}
    else mret tt
  else if kc_spaceKey data && FileHelper.isSelectable (Some (kc_file data)) then
    dispatch (reduxActions.toggleSelection
                (FileData.id (kc_file data)) (kc_ctrlKey data))
  else mret tt.

(** Lines 180-194.  [FileHelper.isOpenable] is a type guard: where it holds
    the parent folder is a file, not [null], which is what lets the source
    pass it on as [target]. *)
Definition onOpenParentFolder : M unit :=
  parent ← parentFolderRef;
  if FileHelper.isOpenable parent then
    match parent with
    | Some folder =>
        dispatchFileAction
          {| fa_actionId := FileAction.id (OpenFiles ChonkyActions);
             fa_target := folder;
             fa_files := [folder] |}
    | None => mret tt
    end
  else log Logger.warn Logger.ParentFolderNotOpenable.

(** Lines 195-203. *)
Definition onOpenFolderChainFolder (data : SpecialOpenFolderChainFolderAction) : M unit :=
  dispatchFileAction
    {| fa_actionId := FileAction.id (OpenFiles ChonkyActions);
       fa_target := oc_file data;
       fa_files := [oc_file data] |}.

(** Lines 204-215.  Line 209 builds the [selectFiles] action and drops
    it: unlike every other action of this file it is not passed to
    [dispatch], so the store never sees it. *)
Definition onDragNDropStart (data : SpecialDragNDropStartAction) : M unit :=
  let file := ds_dragSource data in
  state ← getState;
  if negb (getIsFileSelected state (Some file)) then
    dispatch reduxActions.clearSelection;;
    if FileHelper.isSelectable (Some file) then
      let _ := reduxActions.selectFiles [FileData.id file] true in
      mret tt
    else mret tt
  else mret tt.

(** Lines 216-236. *)
Definition onDragNDropEnd (data : SpecialDragNDropEndAction) : M unit :=
  state ← getState;
  if getIsFileSelected state (Some (de_dropTarget data)) then
    mret tt
  else
    state ← getState;
    let selectedFiles := getSelectedFiles state [FileHelper.isDraggable] in
    let droppedFiles :=
      if (0 <? length selectedFiles)%nat
      then selectedFiles else [de_dragSource data] in
    dispatchFileAction
      {| fa_actionId :=
           if String.eqb (de_dropEffect data) "copy"
           then FileAction.id (DuplicateFilesTo ChonkyActions)
           else FileAction.id (MoveFilesTo ChonkyActions);
         fa_target := de_dropTarget data;
         fa_files := droppedFiles |}.

(** The handler map: an object with at most one handler per action id. *)
Record SpecialActionHandlerMap : Type := mkHandlerMap {
  forMouseClickFile : option (SpecialFileMouseClickAction → M unit);
  forKeyboardClickFile : option (SpecialFileKeyboardClickAction → M unit);
  forOpenParentFolder : option (M unit);
  forOpenFolderChainFolder : option (SpecialOpenFolderChainFolderAction → M unit);
  forDragNDropStart : option (SpecialDragNDropStartAction → M unit);
  forDragNDropEnd : option (SpecialDragNDropEndAction → M unit)
}.

(** Lines 88-238: all six handlers are present. *)
Definition useSpecialFileActionHandlerMap : SpecialActionHandlerMap :=
  {| forMouseClickFile := Some onMouseClickFile;
     forKeyboardClickFile := Some onKeyboardClickFile;
     forOpenParentFolder := Some onOpenParentFolder;
     forOpenFolderChainFolder := Some onOpenFolderChainFolder;
     forDragNDropStart := Some onDragNDropStart;
     forDragNDropEnd := Some onDragNDropEnd |}.

(** Lines 81-85: the effect with dependency [rawFiles]. *)
Definition rawFilesEffect : M unit := writeLastClickDisplayIndex None.

(** ** [useSpecialActionDispatcher] *)

(** [specialActionHandlerMap[actionId]], and [handler(actionData)] when it
    is there (lines 44 and 47). *)
Definition handlerCall (specialActionHandlerMap : SpecialActionHandlerMap)
    (actionData : SpecialActionData) : option (M unit) :=
  match actionData with
  | MouseClickFileData data =>
      (λ handler, handler data) <$> forMouseClickFile specialActionHandlerMap
  | KeyboardClickFileData data =>
      (λ handler, handler data) <$> forKeyboardClickFile specialActionHandlerMap
  | OpenParentFolderData => forOpenParentFolder specialActionHandlerMap
  | OpenFolderChainFolderData data =>
      (λ handler, handler data) <$> forOpenFolderChainFolder specialActionHandlerMap
  | DragNDropStartData data =>
      (λ handler, handler data) <$> forDragNDropStart specialActionHandlerMap
  | DragNDropEndData data =>
      (λ handler, handler data) <$> forDragNDropEnd specialActionHandlerMap
  end.

(** Lines 40-62. *)
Definition dispatchSpecialAction (specialActionHandlerMap : SpecialActionHandlerMap)
    (actionData : SpecialActionData) : M unit :=
  log Logger.debug (Logger.SpecialActionRequest actionData);;
  match handlerCall specialActionHandlerMap actionData with
  | Some call =>
      tryCatch call
        (λ err, log Logger.error (Logger.HandlerThrew (actionId actionData) err))
  | None =>
      log Logger.error (Logger.NoInternalHandler (actionId actionData))
  end.

(** ** The life of one instance

    Between two renders the instance receives either a new file array from
    the host, after which the component renders with a changed [rawFiles]
    and the effect of lines 81-85 runs, or a special action from a child
    component.  Every transition is synchronous and complete before the
    next one starts. *)
Inductive Input : Type :=
  | FilesChanged (files : FileArray)
  | SpecialActionRequested (actionData : SpecialActionData).

Definition step (input : Input) : M unit :=
  match input with
  | FilesChanged files =>
      dispatch (reduxActions.setRawFiles files);; rawFilesEffect
  | SpecialActionRequested actionData =>
      dispatchSpecialAction useSpecialFileActionHandlerMap actionData
  end.

Fixpoint run (inputs : list Input) : M unit :=
  match inputs with
  | [] => mret tt
  | input :: rest => step input;; run rest
  end.

End Interpreter.

(** ** [useFileActions] (src/util/file-actions.ts) *)

(** The registry is a plain JavaScript object, [{}], written and read by
    property name.  Such an object has its own properties and a prototype,
    and both count: what a read finds may be inherited, and the name
    ["__proto__"] is the accessor of the prototype, not a property. *)

(** The property names of [Object.prototype], the prototype of [{}] and of
    every action object (ECMAScript, with its annex for browsers). *)
Module ObjectPrototype.
Definition names : list string :=
  [ "constructor"; "hasOwnProperty"; "isPrototypeOf"; "propertyIsEnumerable";
    "toLocaleString"; "toString"; "valueOf";
    "__defineGetter__"; "__defineSetter__"; "__lookupGetter__"; "__lookupSetter__";
    "__proto__" ].
End ObjectPrototype.

(** The property names of an action object, as far as [FileAction.t] holds
    them. *)
Definition fileActionPropertyNames : list string :=
  [ "id"; "name"; "requiresSelection" ].

Module PlainObject.

(** [own]: the own properties.  [proto]: the prototype, which is
    [Object.prototype] ([None]) until an assignment to ["__proto__"]
    replaces it by an action object, whose own prototype is
    [Object.prototype]. *)
Record t : Type := mk {
  own : gmap string FileAction.t;
  proto : Nullable FileAction.t
}.

(** [{}] *)
Definition empty : t := mk ∅ None.

(** [object[key] = value], for an action object [value] (an ordinary,
    extensible object).  The name ["__proto__"] reaches the setter of
    [Object.prototype], which replaces the prototype and creates no own
    property; every other name becomes, or stays, an own property. *)
Definition set (object : t) (key : string) (value : FileAction.t) : t :=
  if bool_decide (key = "__proto__")
  then mk (own object) (Some value)
  else mk (<[key := value]> (own object)) (proto object).

(** The names a read finds on the prototype chain. *)
Definition inheritedNames (object : t) : list string :=
  match proto object with
  | Some _ => fileActionPropertyNames
  | None => []
  end ++ ObjectPrototype.names.

(** What [object[key]] evaluates to: an action object, some other value
    found on the prototype chain (a function of [Object.prototype],
    [Object.prototype] itself, a field of the action that is the
    prototype), or [undefined]. *)
Inductive Read : Type :=
  | ReadAction (action : FileAction.t)
  | ReadInherited
  | ReadUndefined.

(** [object[key]]: the own property if there is one; for ["__proto__"] the
    prototype; else what the prototype chain holds under the name. *)
Definition get (object : t) (key : string) : Read :=
  match own object !! key with
  | Some action => ReadAction action
  | None =>
      if bool_decide (key = "__proto__") then
        match proto object with
        | Some action => ReadAction action
        | None => ReadInherited
        end
      else if bool_decide (key ∈ inheritedNames object) then ReadInherited
      else ReadUndefined
  end.

(** [Object.keys(object)], as a set. *)
Definition keys (object : t) : gset string := dom (own object).

(** [later ∪ earlier]: the object that holds what [later] holds, and what
    [earlier] holds where [later] holds nothing. *)
#[global] Instance union : Union t := λ later earlier,
  mk (own later ∪ own earlier)
     (match proto later with Some action => Some action | None => proto earlier end).

#[global] Instance empty_object : Empty t := empty.

End PlainObject.

(** Lines 32-33: [fileActionMap = {}], then
    [for (const action of fileActions) fileActionMap[action.id] = action]. *)
Definition fileActionMap (fileActions : list FileAction.t) : PlainObject.t :=
  foldl (λ map action, PlainObject.set map (FileAction.id action) action)
        PlainObject.empty fileActions.

(** Modelled from the spec: [useRefCallbackWithErrorHandling]
    (util/hooks-helpers) is not among the sources.  It is the isolating
    boundary of the Action Dispatcher: the callback is invoked, and an
    exception is caught and logged without being propagated. *)
Definition useRefCallbackWithErrorHandling {A : Type}
    (callbackFunc : A → M unit) (displayName : string) : A → M unit :=
  λ args, tryCatch (callbackFunc args)
            (λ err, log Logger.error (Logger.ErrorInside displayName err)).

(** ** Vocabulary of the statements *)

(** The display index an input carries, if it carries one. *)
Definition displayIndexOf (input : Input) : list Z :=
  match input with
  | SpecialActionRequested (MouseClickFileData data) => [mc_fileDisplayIndex data]
  | SpecialActionRequested (KeyboardClickFileData data) => [kc_fileDisplayIndex data]
  | _ => []
  end.

(** The world with one more call to the file-action dispatcher. *)
Definition withFileAction (w : World) (action : FileActionData) : World :=
  mkWorld (store w) (lastClickDisplayIndexRef w)
          (dispatchedFileActions w ++ [action]) (console w).

(** The world with one more line on the console. *)
Definition withLog (w : World) (entry : Logger.Entry) : World :=
  mkWorld (store w) (lastClickDisplayIndexRef w) (dispatchedFileActions w)
          (console w ++ [entry]).

(** The world after the store has reduced an action. *)
Definition withReduced (w : World) (action : reduxActions.t) : World :=
  mkWorld (rootReducer (store w) action) (lastClickDisplayIndexRef w)
          (dispatchedFileActions w) (console w).

Definition withLastClick (w : World) (value : Nullable Z) : World :=
  mkWorld (store w) value (dispatchedFileActions w) (console w).

Definition openAction (ChonkyActions : ChonkyActionsT) (file : FileData.t) : FileActionData :=
  {| fa_actionId := FileAction.id (OpenFiles ChonkyActions);
     fa_target := file;
     fa_files := [file] |}.

(** The action the spec asks of a drop: Duplicate for the drop effect
    "copy" and Move otherwise, on the drop target, with the selection
    filtered to draggable files, or the drag source alone when that is
    empty. *)
Definition dropAction (ChonkyActions : ChonkyActionsT)
    (data : SpecialDragNDropEndAction) (state : RootState) : FileActionData :=
  let draggableSelection := List.filter FileData.draggable (getSelectedFiles state []) in
  {| fa_actionId :=
       if decide (de_dropEffect data = "copy")
       then FileAction.id (DuplicateFilesTo ChonkyActions)
       else FileAction.id (MoveFilesTo ChonkyActions);
     fa_target := de_dropTarget data;
     fa_files :=
       match draggableSelection with
       | [] => [de_dragSource data]
       | _ :: _ => draggableSelection
       end |}.

(** ** A concrete instance, for the scenarios of the spec *)

Module Demo.
Definition actions : ChonkyActionsT :=
  {| OpenFiles := FileAction.mk "open_files" "Open selection" true;
     DuplicateFilesTo := FileAction.mk "duplicate_files_to" "Duplicate files" true;
     MoveFilesTo := FileAction.mk "move_files_to" "Move files" true |}.

Definition quietHost : FileActionData → Outcome unit := λ _, Returned tt.
Definition throwingHost : FileActionData → Outcome unit := λ _, Threw "host failed".

Definition A : FileData.t := FileData.mk "A" true true true.
Definition B : FileData.t := FileData.mk "B" true true true.
Definition C : FileData.t := FileData.mk "C" true true true.
Definition D : FileData.t := FileData.mk "D" true true true.
(** A folder that can receive a drop but is neither selectable nor draggable. *)
Definition folder : FileData.t := FileData.mk "folder" false true false.
(** A file that is not openable. *)
Definition locked : FileData.t := FileData.mk "locked" true false true.

Definition files : FileArray := [Some A; Some B; Some C; Some D; Some folder].

Definition world (selection : gset string) (lastClick : Nullable Z) : World :=
  {| store := {| rawFiles := files;
                 displayView := λ supplied, supplied;
                 selectedIds := selection;
                 disableSelection := false;
                 parentFolder := Some folder |};
     lastClickDisplayIndexRef := lastClick;
     dispatchedFileActions := [];
     console := [] |}.

Definition click (file : FileData.t) (index : Z) (ctrl shift : bool) : SpecialActionData :=
  MouseClickFileData (mkMouseClick single file index ctrl shift).
End Demo.

(** ** [useFileActionModifiers] (src/util/file-actions.ts, lines 81-107) *)

(** The two built-in actions [useFileActionModifiers] names.  Their
    definitions (util/file-actions-definitions) are not among the sources,
    so they are taken as a parameter. *)
Record ChonkyToolbarActionsT : Type := mkChonkyToolbarActions {
  ToggleSearch : FileAction.t;
  OpenParentFolder : FileAction.t
}.

Module FileActionModifiers.
Record t : Type := mk {
  active : bool;
  disabled : bool
}.
End FileActionModifiers.

(** Lines 84-106.  The four Recoil values the hook reads are its arguments:
    [action] is the definition held for the action id, or [null];
    [actionSelectionSize] the number of selected files the action applies
    to. *)
Definition useFileActionModifiers (ChonkyActions : ChonkyToolbarActionsT)
    (action : Nullable FileAction.t) (searchBarVisible : bool)
    (parent : Nullable FileData.t) (actionSelectionSize : nat)
    : FileActionModifiers.t :=
  let actionSelectionEmpty := (actionSelectionSize =? 0)%nat in
  match action with
  | None => {| FileActionModifiers.active := false;
               FileActionModifiers.disabled := true |}
  | Some action =>
      let active :=
        String.eqb (FileAction.id action) (FileAction.id (ToggleSearch ChonkyActions))
        && searchBarVisible in
      let disabled := FileAction.requiresSelection action && actionSelectionEmpty in
      let disabled :=
        if String.eqb (FileAction.id action)
                      (FileAction.id (OpenParentFolder ChonkyActions))
        then disabled || negb (FileHelper.isOpenable parent)
        else disabled in
      {| FileActionModifiers.active := active;
         FileActionModifiers.disabled := disabled |}
  end.

(** ** [ToolbarButtonGroup] (the toolbar button group component) *)

Record ToolbarButtonGroup : Type := mkToolbarButtonGroup {
  tg_name : Nullable string;
  tg_dropdown : Nullable bool;
  tg_fileActions : list FileAction.t
}.

(** A [SmartToolbarButton] element: its React key and its [fileAction]
    prop. *)
Record SmartToolbarButtonElement : Type := mkSmartToolbarButton {
  el_key : string;
  el_fileAction : FileAction.t
}.

(** Lines 26-31: one button per action of the group, in order, keyed by the
    action's name. *)
Definition buttonComponents (group : ToolbarButtonGroup) : list SmartToolbarButtonElement :=
  (λ action,
     {| el_key := "action-button-" +:+ FileAction.name action;
        el_fileAction := action |}) <$> tg_fileActions group.

(** ** More vocabulary *)

(** What one special action can add, after its debug line, to the calls
    made to the host and to the console: nothing; one call that returns; a
    warning; or one call on which the host throws, and the error line for
    it. *)
Inductive AfterRequest (host : FileActionData → Outcome unit)
    (requested : SpecialAction.t)
    : list FileActionData → list Logger.Entry → Prop :=
  | after_nothing : AfterRequest host requested [] []
  | after_call (action : FileActionData) :
      host action = Returned tt →
      AfterRequest host requested [action] []
  | after_warning :
      AfterRequest host requested [] [(Logger.warn, Logger.ParentFolderNotOpenable)]
  | after_host_error (action : FileActionData) (err : Error) :
      host action = Threw err →
      AfterRequest host requested [action]
        [(Logger.error, Logger.HandlerThrew requested err)].

(** * Properties *)

(** ** The monad *)

Lemma bind_returned {A B : Type} (m : M A) (k : A → M B) (w w' : World) (a : A) :
  m w = (w', Returned a) → (m ≫= k) w = k a w'.
Proof. intros Hm. unfold mbind, M_bind. by rewrite Hm. Qed.

Lemma bind_threw {A B : Type} (m : M A) (k : A → M B) (w w' : World) (e : Error) :
  m w = (w', Threw e) → (m ≫= k) w = (w', Threw e).
Proof. intros Hm. unfold mbind, M_bind. by rewrite Hm. Qed.

(** Runs the first action of a sequence when it returns by computation. *)
Ltac bind_returns := erewrite bind_returned by reflexivity.

Lemma log_returns (level : Logger.Level) (message : Logger.Message) (w : World) :
  log level message w = (withLog w (level, message), Returned tt).
Proof. reflexivity. Qed.

Lemma dispatch_returns (action : reduxActions.t) (w : World) :
  dispatch action w = (withReduced w action, Returned tt).
Proof. reflexivity. Qed.

(** A [try]/[catch] whose handler only logs always returns. *)
Lemma tryCatch_log_returns (body : M unit) (message : Error → Logger.Message) (w : World) :
  (tryCatch body (λ err, log Logger.error (message err)) w).2 = Returned tt.
Proof.
  unfold tryCatch. destruct (body w) as [w' [[]|e]]; reflexivity.
Qed.

(** ** The selection store *)

Lemma getSelectedFiles_draggable (state : RootState) :
  getSelectedFiles state [FileHelper.isDraggable]
  = List.filter FileData.draggable (getSelectedFiles state []).
Proof.
  unfold getSelectedFiles.
  induction (rawFiles state) as [|[f|] files IH]; simpl; [done| |exact IH].
  destruct (bool_decide (FileData.id f ∈ selectionMap state)); simpl; [|exact IH].
  destruct (FileData.draggable f); simpl; [f_equal|]; exact IH.
Qed.

(** The selected files are the files of the sequence whose id is selected. *)
Lemma elem_of_getSelectedFiles (state : RootState) (f : FileData.t) :
  f ∈ getSelectedFiles state []
  ↔ Some f ∈ rawFiles state ∧ FileData.id f ∈ selectionMap state.
Proof.
  unfold getSelectedFiles. rewrite list_elem_of_omap. split.
  - intros ([g|] & Hin & Hsome); [|done].
    simpl in Hsome. rewrite andb_true_r in Hsome.
    case_bool_decide; [|done]. by simplify_eq.
  - intros [Hin Hsel]. exists (Some f). split; [done|].
    simpl. by rewrite bool_decide_eq_true_2.
Qed.

(** With the selection disabled the selection is empty and stays empty, and
    the store ignores every action on the selection. *)
Lemma disabled_selection_is_inert (state : RootState) (action : reduxActions.t) :
  disableSelection state = true →
  selectionMap state = ∅
  ∧ selectionMap (rootReducer state action) = ∅
  ∧ ((∀ files, action ≠ reduxActions.setRawFiles files) →
     rootReducer state action = state).
Proof.
  intros Hdisabled. unfold selectionMap.
  destruct action; cbn; rewrite ?Hdisabled; cbn; rewrite ?Hdisabled; try done.
  split; [done|]. split; [done|]. intros Hne. by destruct (Hne files).
Qed.

(** The store ignores a toggle of an id that no file of the sequence bears. *)
Lemma toggleSelection_unknown (state : RootState) (fileId : string) (exclusive : bool) :
  isKnownFileId (rawFiles state) fileId = false →
  rootReducer state (reduxActions.toggleSelection fileId exclusive) = state.
Proof. intros Hunknown. cbn. rewrite Hunknown. by destruct (disableSelection state). Qed.

(** After [clearSelection] nothing is selected, in every state. *)
Lemma clearSelection_selection (state : RootState) :
  selectionMap (rootReducer state reduxActions.clearSelection) = ∅.
Proof.
  unfold selectionMap. cbn.
  destruct (disableSelection state) eqn:Hdisabled; cbn; by rewrite Hdisabled.
Qed.

(** With the selection enabled, a toggle that is not exclusive flips the
    membership of a known file and of no other id. *)
Lemma toggleSelection_additive (state : RootState) (fileId other : string) :
  disableSelection state = false →
  isKnownFileId (rawFiles state) fileId = true →
  let state' := rootReducer state (reduxActions.toggleSelection fileId false) in
  (fileId ∈ selectionMap state' ↔ fileId ∉ selectionMap state)
  ∧ (other ≠ fileId → other ∈ selectionMap state' ↔ other ∈ selectionMap state).
Proof.
  intros Hdisabled Hknown. unfold selectionMap. cbn. rewrite Hdisabled, Hknown. cbn.
  case_bool_decide as Hin; cbn; rewrite Hdisabled.
  - rewrite !elem_of_difference, !elem_of_singleton. intuition congruence.
  - rewrite !elem_of_union, !elem_of_singleton. intuition congruence.
Qed.

(** With the selection enabled, an exclusive toggle of a known file makes it
    the whole selection. *)
Lemma toggleSelection_exclusive (state : RootState) (fileId : string) :
  disableSelection state = false →
  isKnownFileId (rawFiles state) fileId = true →
  selectionMap (rootReducer state (reduxActions.toggleSelection fileId true))
  = {[ fileId ]}.
Proof.
  intros Hdisabled Hknown. unfold selectionMap. cbn. rewrite Hdisabled, Hknown. cbn.
  by rewrite Hdisabled.
Qed.

Lemma elem_of_idsInRange (files : FileArray) (index lo hi : Z) (fileId : string) :
  fileId ∈ idsInRange files index lo hi
  ↔ ∃ (i : nat) (f : FileData.t),
      files !! i = Some (Some f) ∧ FileData.id f = fileId
      ∧ lo ≤ index + Z.of_nat i ≤ hi.
Proof.
  revert index. induction files as [|file files IH]; intros index; simpl.
  - split; [by intros ?%elem_of_nil | by intros (i & f & ? & _)].
  - assert (fileId ∈ idsInRange files (index + 1) lo hi
            ↔ ∃ (i : nat) (f : FileData.t),
                (file :: files) !! S i = Some (Some f) ∧ FileData.id f = fileId
                ∧ lo ≤ index + Z.of_nat (S i) ≤ hi) as Htail.
    { rewrite IH. split; intros (i & f & Hi & Hid & Hr); exists i, f;
        (split; [done|split; [done|lia]]). }
    assert ((∃ (i : nat) (f : FileData.t),
                (file :: files) !! i = Some (Some f) ∧ FileData.id f = fileId
                ∧ lo ≤ index + Z.of_nat i ≤ hi)
            ↔ (∃ f, file = Some f ∧ FileData.id f = fileId ∧ lo ≤ index ≤ hi)
              ∨ fileId ∈ idsInRange files (index + 1) lo hi) as ->.
    { rewrite Htail. split.
      - intros ([|i] & f & Hi & Hid & Hr).
        + left. exists f. simpl in Hi. split; [congruence|]. split; [done|lia].
        + right. by exists i, f.
      - intros [(f & -> & Hid & Hr)|(i & f & ?)].
        + exists 0%nat, f. split; [done|]. split; [done|lia].
        + by exists (S i), f. }
    destruct file as [f|].
    + case_bool_decide as Hr.
      * rewrite elem_of_cons. split.
        -- intros [->|?]; [left; by exists f | by right].
        -- intros [(g & [= <-] & Hid & _)|?]; [by left | by right].
      * split; [by right|]. intros [(g & _ & _ & ?)|?]; done.
    + split; [by right|]. intros [(g & ? & _)|?]; done.
Qed.

(** With the selection enabled, after [selectRange] the selection is the set
    of the ids of the files whose display index lies between the two bounds,
    whatever it was and whichever bound comes first. *)
Lemma selectRange_selection (state : RootState) (rangeStart rangeEnd : Z) (fileId : string) :
  disableSelection state = false →
  fileId ∈ selectionMap (rootReducer state (reduxActions.selectRange rangeStart rangeEnd))
  ↔ ∃ (i : nat) (f : FileData.t),
      displayFiles state !! i = Some (Some f) ∧ FileData.id f = fileId
      ∧ Z.min rangeStart rangeEnd ≤ Z.of_nat i ≤ Z.max rangeStart rangeEnd.
Proof.
  intros Hdisabled. unfold selectionMap. cbn. rewrite Hdisabled. cbn.
  rewrite Hdisabled, elem_of_list_to_set, elem_of_idsInRange.
  by setoid_rewrite Z.add_0_l.
Qed.

(** ** The handlers *)

Section Handlers.

Variable ChonkyActions : ChonkyActionsT.
Variable host : FileActionData → Outcome unit.

Lemma dispatchFileAction_spec (action : FileActionData) (w : World) :
  dispatchFileAction host action w = (withFileAction w action, host action).
Proof. reflexivity. Qed.

(** *** Drag start *)

(** A drag that starts on a file outside the selection ends with the store
    as [clearSelection] leaves it: nothing is selected, whether the file is
    selectable or not. *)
Lemma onDragNDropStart_unselected (data : SpecialDragNDropStartAction) (w : World) :
  getIsFileSelected (store w) (Some (ds_dragSource data)) = false →
  onDragNDropStart data w = (withReduced w reduxActions.clearSelection, Returned tt).
Proof.
  intros Hsel. unfold onDragNDropStart.
  bind_returns.
  rewrite Hsel. simpl.
  bind_returns.
  by destruct (FileData.selectable _).
Qed.

(** A drag that starts on a selected file changes nothing. *)
Lemma onDragNDropStart_selected (data : SpecialDragNDropStartAction) (w : World) :
  getIsFileSelected (store w) (Some (ds_dragSource data)) = true →
  onDragNDropStart data w = (w, Returned tt).
Proof.
  intros Hsel. unfold onDragNDropStart.
  bind_returns.
  by rewrite Hsel.
Qed.

(** *** Drag end *)

(** C2.  A drop on a selected target dispatches nothing and leaves the world
    as it was.  Any other drop makes exactly one call to the file-action
    dispatcher and changes nothing else: the action is Duplicate for the drop
    effect "copy" and Move otherwise, its target is the drop target, and its
    files are the selected draggable files, or the drag source alone when
    there is none. *)
Theorem C2_drag_end (data : SpecialDragNDropEndAction) (w : World) :
  onDragNDropEnd ChonkyActions host data w
  = if getIsFileSelected (store w) (Some (de_dropTarget data))
    then (w, Returned tt)
    else (withFileAction w (dropAction ChonkyActions data (store w)),
          host (dropAction ChonkyActions data (store w))).
Proof.
  unfold onDragNDropEnd.
  bind_returns.
  destruct (getIsFileSelected _ _); [reflexivity|].
  bind_returns.
  rewrite dispatchFileAction_spec.
  assert ({| fa_actionId :=
               if (de_dropEffect data =? "copy")%string
               then FileAction.id (DuplicateFilesTo ChonkyActions)
               else FileAction.id (MoveFilesTo ChonkyActions);
             fa_target := de_dropTarget data;
             fa_files :=
               if (0 <? length (getSelectedFiles (store w) [FileHelper.isDraggable]))%nat
               then getSelectedFiles (store w) [FileHelper.isDraggable]
               else [de_dragSource data] |}
          = dropAction ChonkyActions data (store w)) as ->; [|reflexivity].
  unfold dropAction. rewrite getSelectedFiles_draggable. f_equal.
  - destruct (String.eqb_spec (de_dropEffect data) "copy");
      by case_decide.
  - by destruct (List.filter _ _).
Qed.

(** *** Double click *)

(** C3.  A double click on an openable file makes exactly one call to the
    file-action dispatcher, with the Open action whose target is the clicked
    file and whose files are the clicked file alone, whatever is selected; on
    a file that is not openable it makes none.  The store, the last-click
    index and the console are as before in both cases. *)
Theorem C3_double_click (data : SpecialFileMouseClickAction) (w : World) :
  mc_clickType data = double →
  let w' := (onMouseClickFile ChonkyActions host data w).1 in
  store w' = store w
  ∧ lastClickDisplayIndexRef w' = lastClickDisplayIndexRef w
  ∧ console w' = console w
  ∧ dispatchedFileActions w'
    = dispatchedFileActions w
      ++ (if FileHelper.isOpenable (Some (mc_file data))
          then [ {| fa_actionId := FileAction.id (OpenFiles ChonkyActions);
                    fa_target := mc_file data;
                    fa_files := [mc_file data] |} ]
          else []).
Proof.
  intros Hdouble. unfold onMouseClickFile. rewrite Hdouble.
  destruct (FileHelper.isOpenable _); simpl.
  - done.
  - by rewrite app_nil_r.
Qed.

End Handlers.

(** C1, on the code: with nothing selected, a drag that starts on the
    selectable file [B] leaves the selection empty.  The file is not in the
    selection, which therefore is not the singleton of its id. *)
Theorem C1_drag_start_selects_nothing :
  let w := Demo.world ∅ None in
  let w' := (onDragNDropStart (mkDragNDropStart Demo.B) w).1 in
  FileHelper.isSelectable (Some Demo.B) = true
  ∧ getIsFileSelected (store w) (Some Demo.B) = false
  ∧ selectionMap (store w') = ∅
  ∧ selectionMap (store w') ≠ {[ FileData.id Demo.B ]}.
Proof.
  intros w w'. split; [reflexivity|]. split; [reflexivity|]. split; [reflexivity|].
  intros Heq.
  assert (FileData.id Demo.B ∈ selectionMap (store w')) as Hin
    by (rewrite Heq; by apply elem_of_singleton).
  change (selectionMap (store w')) with (∅ : gset string) in Hin.
  by apply not_elem_of_empty in Hin.
Qed.

Lemma C3_double_click_witness :
  let w := Demo.world {[ "B"; "C"; "D" ]} (Some 2) in
  let w' := (onMouseClickFile Demo.actions Demo.quietHost
               (mkMouseClick double Demo.A 0 false false) w).1 in
  store w' = store w
  ∧ lastClickDisplayIndexRef w' = lastClickDisplayIndexRef w
  ∧ console w' = console w
  ∧ dispatchedFileActions w'
    = dispatchedFileActions w
      ++ (if FileHelper.isOpenable (Some Demo.A)
          then [ {| fa_actionId := "open_files";
                    fa_target := Demo.A;
                    fa_files := [Demo.A] |} ]
          else []).
Proof.
  apply (C3_double_click Demo.actions Demo.quietHost
           (mkMouseClick double Demo.A 0 false false)).
  reflexivity.
Defined.

Section Clicks.

Variable ChonkyActions : ChonkyActionsT.
Variable host : FileActionData → Outcome unit.

(** *** Single click with shift *)

(** What a shift-click does when there is an anchor. *)
Lemma shift_click_with_anchor (file : FileData.t) (index anchor : Z) (w : World) :
  FileHelper.isSelectable (Some file) = true →
  lastClickDisplayIndexRef w = Some anchor →
  onMouseClickFile ChonkyActions host (mkMouseClick single file index false true) w
  = (withReduced w (reduxActions.selectRange (Z.min anchor index) (Z.max anchor index)),
     Returned tt).
Proof.
  intros Hselectable Hanchor. unfold onMouseClickFile.
  cbn [mc_clickType mc_file mc_ctrlKey mc_shiftKey mc_fileDisplayIndex].
  rewrite Hselectable.
  rewrite (bind_returned _ _ w w (Some anchor))
    by (unfold readLastClickDisplayIndex; by rewrite Hanchor).
  destruct (Z.gtb_spec anchor index).
  - rewrite dispatch_returns. by rewrite Z.min_r, Z.max_l by lia.
  - rewrite dispatch_returns. by rewrite Z.min_l, Z.max_r by lia.
Qed.

(** What a shift-click does when there is no anchor. *)
Lemma shift_click_without_anchor (file : FileData.t) (index : Z) (w : World) :
  FileHelper.isSelectable (Some file) = true →
  lastClickDisplayIndexRef w = None →
  onMouseClickFile ChonkyActions host (mkMouseClick single file index false true) w
  = (withLastClick
       (withReduced w (reduxActions.toggleSelection (FileData.id file) false))
       (Some index),
     Returned tt).
Proof.
  intros Hselectable Hanchor. unfold onMouseClickFile.
  cbn [mc_clickType mc_file mc_ctrlKey mc_shiftKey mc_fileDisplayIndex].
  rewrite Hselectable.
  by rewrite (bind_returned _ _ w w None)
    by (unfold readLastClickDisplayIndex; by rewrite Hanchor).
Qed.

(** What a ctrl-click does, with or without shift. *)
Lemma ctrl_click (file : FileData.t) (index : Z) (shift : bool) (w : World) :
  FileHelper.isSelectable (Some file) = true →
  onMouseClickFile ChonkyActions host (mkMouseClick single file index true shift) w
  = (withLastClick
       (withReduced w (reduxActions.toggleSelection (FileData.id file) false))
       (Some index),
     Returned tt).
Proof.
  intros Hselectable. unfold onMouseClickFile.
  cbn [mc_clickType mc_file mc_ctrlKey mc_shiftKey mc_fileDisplayIndex].
  by rewrite Hselectable.
Qed.



(** *** Keyboard *)

(** C6.  A keyboard click with Enter sets the last-click index to the row's
    display index and leaves the store alone.  It makes one call to the
    file-action dispatcher, with the Open action of the focused file, when
    nothing is selected, and none when something is. *)
Theorem C6_keyboard_enter (data : SpecialFileKeyboardClickAction) (w : World) :
  kc_enterKey data = true →
  let w' := (onKeyboardClickFile ChonkyActions host data w).1 in
  lastClickDisplayIndexRef w' = Some (kc_fileDisplayIndex data)
  ∧ store w' = store w
  ∧ console w' = console w
  ∧ dispatchedFileActions w'
    = dispatchedFileActions w
      ++ (if decide (size (selectionMap (store w)) = 0%nat)
          then [ {| fa_actionId := FileAction.id (OpenFiles ChonkyActions);
                    fa_target := kc_file data;
                    fa_files := [kc_file data] |} ]
          else []).
Proof.
  intros Henter. unfold onKeyboardClickFile. rewrite Henter.
  do 2 bind_returns.
  case_bool_decide; case_decide; try done; simpl.
  by rewrite app_nil_r.
Qed.

(** *** Parent folder *)

(** C8.  When the parent folder is openable, the request makes exactly one
    call to the file-action dispatcher, with the Open action whose target and
    only file is the parent folder.  Otherwise it writes one warning to the
    console and changes nothing else: no call, the same store, the same
    last-click index. *)
Theorem C8_open_parent_folder (w : World) :
  let r := onOpenParentFolder ChonkyActions host w in
  if FileHelper.isOpenable (parentFolder (store w))
  then ∃ folder : FileData.t,
         parentFolder (store w) = Some folder
         ∧ r = (withFileAction w (openAction ChonkyActions folder),
                host (openAction ChonkyActions folder))
  else r = (withLog w (Logger.warn, Logger.ParentFolderNotOpenable), Returned tt).
Proof.
  unfold onOpenParentFolder.
  bind_returns.
  unfold selectParentFolder.
  destruct (parentFolder (store w)) as [folder|]; [|reflexivity].
  destruct (FileHelper.isOpenable (Some folder)); [|reflexivity].
  by exists folder.
Qed.

End Clicks.

(** ** The dispatcher of special actions *)

(** Modelled boundary of [useFileActions]: a callback behind
    [useRefCallbackWithErrorHandling] returns whatever the callback does. *)
Lemma useRefCallbackWithErrorHandling_returns {A : Type}
    (callbackFunc : A → M unit) (displayName : string) (args : A) (w : World) :
  (useRefCallbackWithErrorHandling callbackFunc displayName args w).2 = Returned tt.
Proof. apply tryCatch_log_returns. Qed.

(** The dispatcher after its debug line. *)
Lemma dispatchSpecialAction_unfold (specialActionHandlerMap : SpecialActionHandlerMap)
    (actionData : SpecialActionData) (w : World) :
  dispatchSpecialAction specialActionHandlerMap actionData w
  = let requested :=
      withLog w (Logger.debug, Logger.SpecialActionRequest actionData) in
    match handlerCall specialActionHandlerMap actionData with
    | Some call =>
        tryCatch call
          (λ err, log Logger.error (Logger.HandlerThrew (actionId actionData) err))
          requested
    | None =>
        log Logger.error (Logger.NoInternalHandler (actionId actionData)) requested
    end.
Proof.
  unfold dispatchSpecialAction.
  bind_returns.
  by destruct (handlerCall _ _).
Qed.

Lemma dispatchSpecialAction_returns (specialActionHandlerMap : SpecialActionHandlerMap)
    (actionData : SpecialActionData) (w : World) :
  (dispatchSpecialAction specialActionHandlerMap actionData w).2 = Returned tt.
Proof.
  rewrite dispatchSpecialAction_unfold. cbv zeta.
  destruct (handlerCall _ _) as [call|]; [|reflexivity].
  apply (tryCatch_log_returns call
           (λ err, Logger.HandlerThrew (actionId actionData) err)).
Qed.


(** The last testable property of the spec, on the handlers of the hook:
    the host throws on the Open action of a double click; the click that
    follows still selects its file. *)
Example throwing_host_does_not_stop_next_dispatch :
  let hmap := useSpecialFileActionHandlerMap Demo.actions Demo.throwingHost in
  let r := (dispatchSpecialAction hmap
              (MouseClickFileData (mkMouseClick double Demo.A 0 false false));;
            dispatchSpecialAction hmap (Demo.click Demo.B 1 false false))
             (Demo.world ∅ None) in
  r.2 = Returned tt
  ∧ selectionMap (store r.1) = {[ "B" ]}
  ∧ lastClickDisplayIndexRef r.1 = Some 1
  ∧ dispatchedFileActions r.1 = [openAction Demo.actions Demo.A].
Proof. repeat split; reflexivity. Qed.

(** ** The registry of file actions *)

Lemma fileActionMap_snoc (fileActions : list FileAction.t) (action : FileAction.t) :
  fileActionMap (fileActions ++ [action])
  = PlainObject.set (fileActionMap fileActions) (FileAction.id action) action.
Proof. unfold fileActionMap. by rewrite foldl_snoc. Qed.

(** The own property under a name is the last action of the list that bears
    it, except under ["__proto__"], where there is none. *)
Lemma fileActionMap_own (fileActions : list FileAction.t) (fileActionId : string) :
  PlainObject.own (fileActionMap fileActions) !! fileActionId
  = if bool_decide (fileActionId = "__proto__") then None
    else last (filter (λ action, FileAction.id action = fileActionId) fileActions).
Proof.
  induction fileActions as [|action fileActions IH] using rev_ind.
  { by case_bool_decide. }
  rewrite fileActionMap_snoc, filter_app, filter_cons, filter_nil.
  unfold PlainObject.set.
  destruct (decide (FileAction.id action = "__proto__")) as [Hproto|Hproto].
  - rewrite bool_decide_eq_true_2 by done. cbn. rewrite IH.
    case_bool_decide as Hid; [done|].
    rewrite decide_False by congruence. by rewrite app_nil_r.
  - rewrite bool_decide_eq_false_2 by done. cbn. rewrite lookup_insert.
    destruct (decide (FileAction.id action = fileActionId)) as [Hid|Hid].
    + subst fileActionId. rewrite bool_decide_eq_false_2 by done.
      by rewrite last_snoc.
    + rewrite IH. by rewrite app_nil_r.
Qed.

(** The prototype is the last action of the list that bears the id
    ["__proto__"], and [Object.prototype] when there is none. *)
Lemma fileActionMap_proto (fileActions : list FileAction.t) :
  PlainObject.proto (fileActionMap fileActions)
  = last (filter (λ action, FileAction.id action = "__proto__") fileActions).
Proof.
  induction fileActions as [|action fileActions IH] using rev_ind; [done|].
  rewrite fileActionMap_snoc, filter_app, filter_cons, filter_nil.
  unfold PlainObject.set.
  destruct (decide (FileAction.id action = "__proto__")) as [Hproto|Hproto].
  - rewrite bool_decide_eq_true_2 by done. cbn. by rewrite last_snoc.
  - rewrite bool_decide_eq_false_2 by done. cbn. by rewrite app_nil_r.
Qed.

Lemma last_filter_None (fileActions : list FileAction.t) (fileActionId : string) :
  last (filter (λ action, FileAction.id action = fileActionId) fileActions) = None
  ↔ fileActionId ∉ FileAction.id <$> fileActions.
Proof.
  rewrite last_None, list_elem_of_fmap. split.
  - intros Hnil (action & -> & Hin).
    assert (action ∈ filter (λ a, FileAction.id a = FileAction.id action) fileActions)
      as Hfiltered by by apply list_elem_of_filter.
    rewrite Hnil in Hfiltered. by apply elem_of_nil in Hfiltered.
  - intros Hnone. apply elem_of_nil_inv. intros action [Hid Hin]%list_elem_of_filter.
    apply Hnone. by exists action.
Qed.

(** A read under the id of an action of the list gives the last action that
    bears it, whatever the id. *)
Lemma fileActionMap_get_last (fileActions : list FileAction.t)
    (fileActionId : string) (action : FileAction.t) :
  last (filter (λ action, FileAction.id action = fileActionId) fileActions) = Some action →
  PlainObject.get (fileActionMap fileActions) fileActionId
  = PlainObject.ReadAction action.
Proof.
  intros Hlast. unfold PlainObject.get. rewrite fileActionMap_own.
  case_bool_decide as Hproto.
  - subst fileActionId. by rewrite fileActionMap_proto, Hlast.
  - by rewrite Hlast.
Qed.

Lemma fileActionMap_keys (fileActions : list FileAction.t) :
  PlainObject.keys (fileActionMap fileActions)
  = list_to_set (FileAction.id <$> fileActions) ∖ {[ "__proto__" ]}.
Proof.
  apply set_eq. intros fileActionId. unfold PlainObject.keys.
  rewrite elem_of_dom, fileActionMap_own, elem_of_difference, elem_of_list_to_set,
    elem_of_singleton.
  case_bool_decide as Hproto.
  - split; [by intros [? ?] | by intros [_ ?]].
  - rewrite <- not_eq_None_Some, last_filter_None. split.
    + intros Hin. split; [|done].
      by destruct (decide (fileActionId ∈ FileAction.id <$> fileActions)).
    + by intros [Hin _] Hnot.
Qed.

Lemma fileActionMap_get_undefined (fileActions : list FileAction.t) (fileActionId : string) :
  fileActionId ∉ FileAction.id <$> fileActions →
  fileActionId ∉ PlainObject.inheritedNames (fileActionMap fileActions) →
  PlainObject.get (fileActionMap fileActions) fileActionId = PlainObject.ReadUndefined.
Proof.
  intros Hunknown Hinherited. unfold PlainObject.get. rewrite fileActionMap_own.
  assert (fileActionId ≠ "__proto__") as Hproto.
  { intros ->. apply Hinherited. unfold PlainObject.inheritedNames.
    apply elem_of_app. right. unfold ObjectPrototype.names.
    do 11 apply list_elem_of_further. apply list_elem_of_here. }
  rewrite !bool_decide_eq_false_2 by done.
  by rewrite (proj2 (last_filter_None _ _) Hunknown).
Qed.

(** C10, on the code: an action with the id ["__proto__"] adds no key to
    the registry, so that the keys are not the ids of the list; and a read
    under ["constructor"], an id that no action of the list bears, does not
    come back empty. *)
Lemma C10_registry_is_a_plain_object :
  let open := FileAction.mk "open_files" "Open selection" true in
  let odd := FileAction.mk "__proto__" "Odd" false in
  PlainObject.keys (fileActionMap [open; odd])
  ≠ list_to_set (FileAction.id <$> [open; odd])
  ∧ (("constructor" ∉ FileAction.id <$> [open])
     ∧ PlainObject.get (fileActionMap [open]) "constructor"
       ≠ PlainObject.ReadUndefined).
Proof.
  intros open odd. split; [|split].
  - intros Hkeys.
    assert ("__proto__" ∈ PlainObject.keys (fileActionMap [open; odd])) as Hin.
    { rewrite Hkeys. apply elem_of_list_to_set.
      apply list_elem_of_further, list_elem_of_here. }
    rewrite fileActionMap_keys in Hin.
    apply elem_of_difference in Hin as [_ Hnot]. apply Hnot.
    by apply elem_of_singleton.
  - intros Hin. apply list_elem_of_singleton in Hin. discriminate.
  - discriminate.
Qed.

(** C10, amended.  The registry is built by a left-to-right fold of
    property assignments over the action list.  A read under an id that an
    action of the list bears gives the last action of the list bearing it.
    The keys of the registry are the ids of the list other than
    ["__proto__"], which replaces the prototype instead.  A read under an id
    that no action of the list bears gives nothing, unless the name is
    inherited; and as long as no action bears the id ["__proto__"], the
    inherited names are those of [Object.prototype]. *)
Theorem C10_file_action_map (fileActions : list FileAction.t) (fileActionId : string) :
  fileActionMap fileActions
  = foldl (λ map action, PlainObject.set map (FileAction.id action) action)
          PlainObject.empty fileActions
  ∧ (∀ action : FileAction.t,
       last (filter (λ action, FileAction.id action = fileActionId) fileActions)
       = Some action →
       PlainObject.get (fileActionMap fileActions) fileActionId
       = PlainObject.ReadAction action)
  ∧ PlainObject.keys (fileActionMap fileActions)
    = list_to_set (FileAction.id <$> fileActions) ∖ {[ "__proto__" ]}
  ∧ (fileActionId ∉ FileAction.id <$> fileActions →
     fileActionId ∉ PlainObject.inheritedNames (fileActionMap fileActions) →
     PlainObject.get (fileActionMap fileActions) fileActionId
     = PlainObject.ReadUndefined)
  ∧ ("__proto__" ∉ FileAction.id <$> fileActions →
     PlainObject.inheritedNames (fileActionMap fileActions) = ObjectPrototype.names).
Proof.
  split; [reflexivity|]. split; [apply fileActionMap_get_last|].
  split; [apply fileActionMap_keys|]. split; [apply fileActionMap_get_undefined|].
  intros Hnone. unfold PlainObject.inheritedNames.
  by rewrite fileActionMap_proto, (proj2 (last_filter_None _ _) Hnone).
Qed.

(** ** The last-click index over the life of an instance *)

Section Instance.

Variable ChonkyActions : ChonkyActionsT.
Variable host : FileActionData → Outcome unit.

(** A step never throws: a file change cannot, and the dispatcher of
    special actions catches. *)
Lemma step_returns (input : Input) (w : World) :
  (step ChonkyActions host input w).2 = Returned tt.
Proof.
  destruct input as [files|actionData]; [reflexivity|].
  apply dispatchSpecialAction_returns.
Qed.

Lemma run_cons (input : Input) (inputs : list Input) (w : World) :
  run ChonkyActions host (input :: inputs) w
  = run ChonkyActions host inputs (step ChonkyActions host input w).1.
Proof.
  pose proof (step_returns input w) as Hstep. simpl.
  destruct (step ChonkyActions host input w) as [w' [[]|err]] eqn:Heq; [|done].
  by rewrite (bind_returned _ _ w w' tt).
Qed.

Lemma run_app (inputs inputs' : list Input) (w : World) :
  run ChonkyActions host (inputs ++ inputs') w
  = run ChonkyActions host inputs' (run ChonkyActions host inputs w).1.
Proof.
  revert w. induction inputs as [|input inputs IH]; intros w; [done|].
  by rewrite <- app_comm_cons, !run_cons, IH.
Qed.

(** A file change ends with no last-click index. *)
Lemma step_FilesChanged (files : FileArray) (w : World) :
  step ChonkyActions host (FilesChanged files) w
  = (withLastClick (withReduced w (reduxActions.setRawFiles files)) None, Returned tt).
Proof. reflexivity. Qed.

(** The last-click index a step leaves is the display index its input
    carries or the one it found. *)
Lemma step_lastClick (input : Input) (w : World) (index : Z) :
  lastClickDisplayIndexRef (step ChonkyActions host input w).1 = Some index →
  index ∈ displayIndexOf input ∨ lastClickDisplayIndexRef w = Some index.
Proof.
  destruct input as [files|[data| data | | data | data | data]]; [done|..];
    unfold step, dispatchSpecialAction, useSpecialFileActionHandlerMap,
      handlerCall, tryCatch, mbind, M_bind, log; cbn [fmap option_fmap option_map
      forMouseClickFile forKeyboardClickFile forOpenParentFolder
      forOpenFolderChainFolder forDragNDropStart forDragNDropEnd].
  - unfold onMouseClickFile, dispatchFileAction, dispatch, mbind, M_bind, mret,
      M_ret, readLastClickDisplayIndex, writeLastClickDisplayIndex, log.
    cbn [displayIndexOf].
    repeat (case_match; simplify_eq/=); set_solver.
  - unfold onKeyboardClickFile, dispatchFileAction, dispatch, mbind, M_bind, mret,
      M_ret, selectionSizeRef, writeLastClickDisplayIndex, log.
    cbn [displayIndexOf].
    repeat (case_match; simplify_eq/=); set_solver.
  - unfold onOpenParentFolder, dispatchFileAction, mbind, M_bind, mret, M_ret,
      parentFolderRef, log.
    repeat (case_match; simplify_eq/=); auto.
  - unfold onOpenFolderChainFolder, dispatchFileAction.
    repeat (case_match; simplify_eq/=); auto.
  - unfold onDragNDropStart, dispatch, getState, mbind, M_bind, mret, M_ret.
    repeat (case_match; simplify_eq/=); auto.
  - unfold onDragNDropEnd, dispatchFileAction, getState, mbind, M_bind, mret, M_ret.
    repeat (case_match; simplify_eq/=); auto.
Qed.

Lemma run_lastClick (inputs : list Input) (w : World) (index : Z) :
  lastClickDisplayIndexRef (run ChonkyActions host inputs w).1 = Some index →
  index ∈ inputs ≫= displayIndexOf ∨ lastClickDisplayIndexRef w = Some index.
Proof.
  revert w. induction inputs as [|input inputs IH]; intros w; [by right|].
  rewrite run_cons. intros [Hin|Hstep]%IH.
  - left. rewrite bind_cons, elem_of_app. by right.
  - apply step_lastClick in Hstep as [Hin|Hw]; [left|by right].
    rewrite bind_cons, elem_of_app. by left.
Qed.

(** C9.  Whatever came before, once the file sequence has changed the
    last-click index is none.  A shift-click that comes next on a selectable
    file therefore does not select a range: it toggles the file and becomes
    the anchor.  And whatever inputs follow the change, the last-click index
    is each time none or a display index carried by one of them. *)
Theorem C9_file_change_resets_anchor
    (before after : list Input) (files : FileArray) (w : World) :
  let changed := (run ChonkyActions host (before ++ [FilesChanged files]) w).1 in
  lastClickDisplayIndexRef changed = None
  ∧ rawFiles (store changed) = files
  ∧ (∀ (file : FileData.t) (index : Z),
       FileHelper.isSelectable (Some file) = true →
       let clicked :=
         (onMouseClickFile ChonkyActions host
            (mkMouseClick single file index false true) changed).1 in
       store clicked
       = rootReducer (store changed)
           (reduxActions.toggleSelection (FileData.id file) false)
       ∧ lastClickDisplayIndexRef clicked = Some index)
  ∧ (∀ index : Z,
       lastClickDisplayIndexRef
         (run ChonkyActions host (before ++ FilesChanged files :: after) w).1
       = Some index →
       index ∈ after ≫= displayIndexOf).
Proof.
  intros changed.
  assert (changed
          = withLastClick
              (withReduced (run ChonkyActions host before w).1
                 (reduxActions.setRawFiles files)) None) as Hchanged.
  { subst changed. by rewrite run_app, run_cons, step_FilesChanged. }
  assert (lastClickDisplayIndexRef changed = None) as Hnone by by rewrite Hchanged.
  split; [done|]. split; [by rewrite Hchanged|]. split.
  - intros file index Hselectable clicked.
    subst clicked.
    by rewrite (shift_click_without_anchor ChonkyActions host file index changed).
  - intros index.
    replace (before ++ FilesChanged files :: after)
      with ((before ++ [FilesChanged files]) ++ after) by by rewrite <- app_assoc.
    rewrite run_app. fold changed.
    intros [Hin|Hlast]%run_lastClick; [done|congruence].
Qed.

End Instance.

(** ** The scenarios of the spec, on the concrete instance *)

(** Files [A, B, C, D] at indices 0 to 3.  A plain click on A, a shift-click
    on D, a ctrl-click on B: the selection is [{A, C, D}]. *)
Example scenario_click_shift_ctrl :
  let r := run Demo.actions Demo.quietHost
             [ SpecialActionRequested (Demo.click Demo.A 0 false false);
               SpecialActionRequested (Demo.click Demo.D 3 false true) ]
             (Demo.world ∅ None) in
  let r' := step Demo.actions Demo.quietHost
              (SpecialActionRequested (Demo.click Demo.B 1 true false)) r.1 in
  selectionMap (store r.1) = {[ "A"; "B"; "C"; "D" ]}
  ∧ lastClickDisplayIndexRef r.1 = Some 0
  ∧ selectionMap (store r'.1) = {[ "A"; "C"; "D" ]}.
Proof. repeat split; reflexivity. Qed.

(** With [{A, B, C}] selected, a drag of B keeps the selection; a drop on
    the folder with the effect "move" dispatches Move with the three files;
    a drop on C dispatches nothing. *)
Example scenario_drag_selected :
  let w := Demo.world {[ "A"; "B"; "C" ]} None in
  let started := (onDragNDropStart (mkDragNDropStart Demo.B) w).1 in
  started = w
  ∧ dispatchedFileActions
      (onDragNDropEnd Demo.actions Demo.quietHost
         (mkDragNDropEnd Demo.B Demo.folder "move") started).1
    = [ {| fa_actionId := "move_files_to";
           fa_target := Demo.folder;
           fa_files := [Demo.A; Demo.B; Demo.C] |} ]
  ∧ dispatchedFileActions
      (onDragNDropEnd Demo.actions Demo.quietHost
         (mkDragNDropEnd Demo.B Demo.C "move") started).1
    = [].
Proof. repeat split; reflexivity. Qed.



Lemma C6_keyboard_enter_witness :
  let data := mkKeyboardClick Demo.C 2 true false false in
  let w := Demo.world ∅ (Some 0) in
  kc_enterKey data = true
  ∧ lastClickDisplayIndexRef (onKeyboardClickFile Demo.actions Demo.quietHost data w).1
    = Some 2.
Proof.
  intros data w. split; [reflexivity|].
  exact (proj1 (C6_keyboard_enter Demo.actions Demo.quietHost data w eq_refl)).
Defined.

(** A double click on a file that is not openable dispatches nothing, and an
    Enter on a row while two files are selected dispatches nothing either. *)
Example scenario_nothing_to_open :
  dispatchedFileActions
    (onMouseClickFile Demo.actions Demo.quietHost
       (mkMouseClick double Demo.locked 0 false false)
       (Demo.world {[ "A" ]} None)).1 = []
  ∧ dispatchedFileActions
      (onKeyboardClickFile Demo.actions Demo.quietHost
         (mkKeyboardClick Demo.C 2 true false false)
         (Demo.world {[ "A"; "B" ]} None)).1 = [].
Proof. split; reflexivity. Qed.

(** * Further properties of the handlers *)

Section SingleClicks.

Variable ChonkyActions : ChonkyActionsT.
Variable host : FileActionData → Outcome unit.

(** X1.  A single click without modifier on a selectable file asks the
    store for the exclusive toggle of this file, whatever is selected and
    wherever the anchor is, and makes the click's index the anchor; it
    calls no file action and logs nothing.  It differs from the ctrl-click
    in the exclusive flag only. *)
Theorem X1_plain_click_selects_exclusively (file : FileData.t) (index : Z) (w : World) :
  FileHelper.isSelectable (Some file) = true →
  let r := onMouseClickFile ChonkyActions host
             (mkMouseClick single file index false false) w in
  r = (withLastClick
         (withReduced w (reduxActions.toggleSelection (FileData.id file) true))
         (Some index),
       Returned tt)
  ∧ (onMouseClickFile ChonkyActions host (mkMouseClick single file index true false) w
     = (withLastClick
          (withReduced w (reduxActions.toggleSelection (FileData.id file) false))
          (Some index),
        Returned tt))
  ∧ lastClickDisplayIndexRef r.1 = Some index
  ∧ dispatchedFileActions r.1 = dispatchedFileActions w
  ∧ console r.1 = console w.
Proof.
  intros Hselectable r.
  assert (r = (withLastClick
                 (withReduced w (reduxActions.toggleSelection (FileData.id file) true))
                 (Some index), Returned tt)) as Hr.
  { subst r. unfold onMouseClickFile.
    cbn [mc_clickType mc_file mc_ctrlKey mc_shiftKey mc_fileDisplayIndex].
    by rewrite Hselectable. }
  rewrite Hr. split; [done|]. split; [by apply ctrl_click|]. by repeat split.
Qed.

(** X2.  A single click on a file that is not selectable selects nothing:
    without ctrl it empties the selection, with ctrl it leaves the selection
    as it is; shift plays no part.  Its index becomes the anchor all the
    same, and no file action is called. *)
Theorem X2_click_on_unselectable_file
    (file : FileData.t) (index : Z) (ctrl shift : bool) (w : World) :
  FileHelper.isSelectable (Some file) = false →
  let r := onMouseClickFile ChonkyActions host
             (mkMouseClick single file index ctrl shift) w in
  r.2 = Returned tt
  ∧ selectionMap (store r.1) = (if ctrl then selectionMap (store w) else ∅)
  ∧ lastClickDisplayIndexRef r.1 = Some index
  ∧ dispatchedFileActions r.1 = dispatchedFileActions w
  ∧ console r.1 = console w.
Proof.
  intros Hselectable. unfold onMouseClickFile.
  cbn [mc_clickType mc_file mc_ctrlKey mc_shiftKey mc_fileDisplayIndex].
  rewrite Hselectable. destruct ctrl; [done|].
  repeat split. apply clearSelection_selection.
Qed.

(** X3.  Ctrl wins over shift: a click with both on a selectable file does
    what the click with ctrl alone does, with or without an anchor.  No
    range is dispatched: the store reduces the additive toggle of the
    clicked file and nothing else, and the anchor moves to the click. *)
Theorem X3_ctrl_wins_over_shift (file : FileData.t) (index : Z) (w : World) :
  FileHelper.isSelectable (Some file) = true →
  let r := onMouseClickFile ChonkyActions host
             (mkMouseClick single file index true true) w in
  r = onMouseClickFile ChonkyActions host (mkMouseClick single file index true false) w
  ∧ lastClickDisplayIndexRef r.1 = Some index
  ∧ store r.1
    = rootReducer (store w) (reduxActions.toggleSelection (FileData.id file) false).
Proof.
  intros Hselectable r. subst r.
  rewrite !ctrl_click by done. by repeat split.
Qed.

(** X4.  A single click, on any file with any modifiers and any anchor,
    stays inside the instance: it returns, calls no file action and writes
    nothing to the console, whatever the host would do. *)
Theorem X4_single_click_stays_inside (data : SpecialFileMouseClickAction) (w : World) :
  mc_clickType data = single →
  let r := onMouseClickFile ChonkyActions host data w in
  r.2 = Returned tt
  ∧ dispatchedFileActions r.1 = dispatchedFileActions w
  ∧ console r.1 = console w.
Proof.
  intros Hsingle. unfold onMouseClickFile. rewrite Hsingle.
  unfold mbind, M_bind, readLastClickDisplayIndex.
  destruct (FileHelper.isSelectable _), (mc_ctrlKey data), (mc_shiftKey data),
    (lastClickDisplayIndexRef w) as [anchor|]; cbn; try done;
    by destruct (anchor >? mc_fileDisplayIndex data).
Qed.

(** *** Keyboard *)

(** X5.  A keyboard click without Enter leaves the host alone.  With Space
    on a selectable file it dispatches [toggleSelection] in which
    [exclusive] is the ctrl key, so that on the keyboard ctrl asks for the
    exclusive toggle and its absence for the additive one.  In every other
    case the store is untouched.  The row becomes the anchor in all cases. *)
Theorem X5_keyboard_space (data : SpecialFileKeyboardClickAction) (w : World) :
  kc_enterKey data = false →
  let r := onKeyboardClickFile ChonkyActions host data w in
  r.2 = Returned tt
  ∧ lastClickDisplayIndexRef r.1 = Some (kc_fileDisplayIndex data)
  ∧ dispatchedFileActions r.1 = dispatchedFileActions w
  ∧ store r.1
    = (if kc_spaceKey data && FileHelper.isSelectable (Some (kc_file data))
       then rootReducer (store w)
              (reduxActions.toggleSelection (FileData.id (kc_file data))
                 (kc_ctrlKey data))
       else store w).
Proof.
  intros Henter. unfold onKeyboardClickFile. rewrite Henter. bind_returns.
  by destruct (kc_spaceKey data),
    (FileHelper.isSelectable (Some (kc_file data))).
Qed.

(** X6.  Every keyboard click makes its row the anchor, also when the host
    throws on the Open action of an Enter; the shift-click that follows on a
    selectable file selects the range between the row and the click. *)
Theorem X6_keyboard_click_anchors_range
    (data : SpecialFileKeyboardClickAction) (file : FileData.t) (index : Z) (w : World) :
  FileHelper.isSelectable (Some file) = true →
  let w' := (onKeyboardClickFile ChonkyActions host data w).1 in
  lastClickDisplayIndexRef w' = Some (kc_fileDisplayIndex data)
  ∧ onMouseClickFile ChonkyActions host (mkMouseClick single file index false true) w'
    = (withReduced w'
         (reduxActions.selectRange
            (Z.min (kc_fileDisplayIndex data) index)
            (Z.max (kc_fileDisplayIndex data) index)),
       Returned tt).
Proof.
  intros Hselectable w'.
  assert (lastClickDisplayIndexRef w' = Some (kc_fileDisplayIndex data)) as Hanchor.
  { subst w'. unfold onKeyboardClickFile. bind_returns.
    destruct (kc_enterKey data).
    - bind_returns. by case_bool_decide.
    - by destruct (kc_spaceKey data && _). }
  split; [done|]. by apply shift_click_with_anchor.
Qed.

End SingleClicks.

Section DragAndFolders.

Variable ChonkyActions : ChonkyActionsT.
Variable host : FileActionData → Outcome unit.

(** *** Folder chain *)

(** X7.  A click in the folder chain always asks the host to open the
    folder, openable or not: through the dispatcher it returns, makes
    exactly one call with the Open action of the folder, leaves the store
    and the anchor alone, and writes an error to the console exactly when
    the host throws. *)
Theorem X7_folder_chain_always_opens
    (data : SpecialOpenFolderChainFolderAction) (w : World) :
  let r := dispatchSpecialAction (useSpecialFileActionHandlerMap ChonkyActions host)
             (OpenFolderChainFolderData data) w in
  let open := openAction ChonkyActions (oc_file data) in
  r.2 = Returned tt
  ∧ store r.1 = store w
  ∧ lastClickDisplayIndexRef r.1 = lastClickDisplayIndexRef w
  ∧ dispatchedFileActions r.1 = dispatchedFileActions w ++ [open]
  ∧ console r.1
    = console w
      ++ (Logger.debug, Logger.SpecialActionRequest (OpenFolderChainFolderData data))
      :: match host open with
         | Returned _ => []
         | Threw err =>
             [(Logger.error,
               Logger.HandlerThrew SpecialAction.OpenFolderChainFolder err)]
         end.
Proof.
  intros r open. subst r open. rewrite dispatchSpecialAction_unfold.
  cbn [handlerCall useSpecialFileActionHandlerMap forOpenFolderChainFolder
       fmap option_fmap option_map].
  unfold onOpenFolderChainFolder, tryCatch, openAction.
  rewrite dispatchFileAction_spec.
  destruct (host _) as [[]|err]; cbn; by rewrite <- ?app_assoc.
Qed.

(** *** Drag and drop *)

(** What a drop on a target outside the selection does. *)
Lemma drop_on_unselected_target (data : SpecialDragNDropEndAction) (w : World) :
  getIsFileSelected (store w) (Some (de_dropTarget data)) = false →
  onDragNDropEnd ChonkyActions host data w
  = (withFileAction w (dropAction ChonkyActions data (store w)),
     host (dropAction ChonkyActions data (store w))).
Proof.
  intros Htarget. unfold onDragNDropEnd. bind_returns. rewrite Htarget.
  bind_returns. rewrite dispatchFileAction_spec.
  unfold dropAction. rewrite getSelectedFiles_draggable.
  assert (∀ (X Y : string),
            (if (de_dropEffect data =? "copy")%string then X else Y)
            = (if decide (de_dropEffect data = "copy") then X else Y)) as ->.
  { intros X Y. destruct (String.eqb_spec (de_dropEffect data) "copy");
      by case_decide. }
  by destruct (List.filter _ _).
Qed.

(** X8.  A drag that starts on a file outside the selection and ends on
    any target carries this file alone: exactly one action is dispatched,
    and its files are the drag source and nothing else, whatever was
    selected before the drag. *)
Theorem X8_drag_of_unselected_file_carries_it_alone
    (source target : FileData.t) (dropEffect : string) (w : World) :
  getIsFileSelected (store w) (Some source) = false →
  let started := (onDragNDropStart (mkDragNDropStart source) w).1 in
  let dropped :=
    (onDragNDropEnd ChonkyActions host (mkDragNDropEnd source target dropEffect)
       started).1 in
  ∃ action : FileActionData,
    dispatchedFileActions dropped = dispatchedFileActions w ++ [action]
    ∧ fa_files action = [source]
    ∧ fa_target action = target.
Proof.
  intros Hsource started dropped.
  assert (started = withReduced w reduxActions.clearSelection) as Hstarted.
  { subst started. by rewrite onDragNDropStart_unselected. }
  assert (selectionMap (store started) = ∅) as Hempty
    by (rewrite Hstarted; apply clearSelection_selection).
  assert (getSelectedFiles (store started) [] = []) as Hnone.
  { unfold getSelectedFiles. rewrite Hempty.
    induction (rawFiles (store started)) as [|[f|] files IH]; [done| |done].
    cbn. by rewrite bool_decide_eq_false_2 by apply not_elem_of_empty. }
  assert (dispatchedFileActions started = dispatchedFileActions w) as Hcalls
    by by rewrite Hstarted.
  exists (dropAction ChonkyActions (mkDragNDropEnd source target dropEffect)
            (store started)).
  subst dropped. rewrite drop_on_unselected_target.
  - cbn [fst withFileAction dispatchedFileActions]. rewrite Hcalls.
    split; [done|]. unfold dropAction. by rewrite Hnone.
  - cbn. rewrite Hempty. by apply bool_decide_eq_false_2, not_elem_of_empty.
Qed.

(** X9.  Unless a file is dropped on itself, the target of a drop is never
    among the files that are dropped: every file of a dispatched action has
    an id other than the target's. *)
Theorem X9_drop_target_is_not_dropped
    (data : SpecialDragNDropEndAction) (w : World) (action : FileActionData) :
  FileData.id (de_dragSource data) ≠ FileData.id (de_dropTarget data) →
  action ∈ drop (length (dispatchedFileActions w))
             (dispatchedFileActions (onDragNDropEnd ChonkyActions host data w).1) →
  ∀ file : FileData.t,
    file ∈ fa_files action → FileData.id file ≠ FileData.id (fa_target action).
Proof.
  intros Hdistinct Haction file Hfile.
  destruct (getIsFileSelected (store w) (Some (de_dropTarget data))) eqn:Htarget.
  - exfalso. revert Haction. unfold onDragNDropEnd. bind_returns. rewrite Htarget.
    cbn. rewrite drop_all. by intros ?%elem_of_nil.
  - rewrite drop_on_unselected_target in Haction by done.
    cbn [fst withFileAction dispatchedFileActions] in Haction.
    rewrite drop_app_length in Haction.
    apply list_elem_of_singleton in Haction as ->.
    cbn [dropAction fa_target fa_files] in *.
    cbn in Htarget. apply bool_decide_eq_false in Htarget.
    destruct (List.filter _ _) as [|f fs] eqn:Hfilter.
    + apply list_elem_of_singleton in Hfile as ->. done.
    + rewrite <- Hfilter in Hfile. apply list_elem_of_In, filter_In in Hfile as [Hin _].
      apply list_elem_of_In, elem_of_getSelectedFiles in Hin as [_ Hsel].
      intros Heq. by rewrite Heq in Hsel.
Qed.

(** X10.  After a drag has started on a draggable file of the file
    sequence, a drop on a target outside the selection always carries the
    dragged file, alone or with the rest of the selection. *)
Theorem X10_dragged_file_is_dropped
    (source target : FileData.t) (dropEffect : string) (w : World) :
  Some source ∈ rawFiles (store w) →
  FileData.draggable source = true →
  let started := (onDragNDropStart (mkDragNDropStart source) w).1 in
  getIsFileSelected (store started) (Some target) = false →
  let dropped :=
    (onDragNDropEnd ChonkyActions host (mkDragNDropEnd source target dropEffect)
       started).1 in
  ∃ action : FileActionData,
    dispatchedFileActions dropped = dispatchedFileActions w ++ [action]
    ∧ source ∈ fa_files action.
Proof.
  intros Hpresent Hdraggable started Htarget dropped.
  exists (dropAction ChonkyActions (mkDragNDropEnd source target dropEffect)
            (store started)).
  subst dropped. rewrite drop_on_unselected_target by done.
  cbn [fst withFileAction dispatchedFileActions dropAction fa_files de_dragSource].
  destruct (getIsFileSelected (store w) (Some source)) eqn:Hsource.
  - assert (started = w) as -> by (subst started; by rewrite onDragNDropStart_selected).
    split; [done|].
    assert (source ∈ List.filter FileData.draggable (getSelectedFiles (store w) []))
      as Hin.
    { apply list_elem_of_In, filter_In. split; [|done].
      apply list_elem_of_In, elem_of_getSelectedFiles. split; [done|].
      cbn in Hsource. by apply bool_decide_eq_true in Hsource. }
    destruct (List.filter _ _); [by apply elem_of_nil in Hin | done].
  - assert (started = withReduced w reduxActions.clearSelection) as Hstarted
      by (subst started; by rewrite onDragNDropStart_unselected).
    split; [by rewrite Hstarted|].
    destruct (List.filter _ _) as [|f fs] eqn:Hfilter; [apply list_elem_of_here|].
    exfalso.
    assert (f ∈ List.filter FileData.draggable (getSelectedFiles (store started) []))
      as Hin by (rewrite Hfilter; apply list_elem_of_here).
    apply list_elem_of_In, filter_In in Hin as [Hin _].
    apply list_elem_of_In, elem_of_getSelectedFiles in Hin as [_ Hsel].
    rewrite Hstarted in Hsel. cbn [withReduced store] in Hsel.
    rewrite clearSelection_selection in Hsel. by apply not_elem_of_empty in Hsel.
Qed.

End DragAndFolders.

(** *** The dispatcher on the handlers of the hook *)

Section HookDispatcher.

Variable ChonkyActions : ChonkyActionsT.
Variable host : FileActionData → Outcome unit.

(** X11.  With the handler map of the hook, every special action finds its
    handler: the error for a missing handler is never written.  One special
    action makes at most one call to the host, and after its debug line the
    console gains nothing, or the warning of the parent folder, or, exactly
    when the host throws on that call, the error that reports it. *)
Theorem X11_hook_dispatch_outcome (actionData : SpecialActionData) (w : World) :
  let r := dispatchSpecialAction (useSpecialFileActionHandlerMap ChonkyActions host)
             actionData w in
  ∃ (calls : list FileActionData) (lines : list Logger.Entry),
    dispatchedFileActions r.1 = dispatchedFileActions w ++ calls
    ∧ console r.1
      = console w ++ (Logger.debug, Logger.SpecialActionRequest actionData) :: lines
    ∧ AfterRequest host (actionId actionData) calls lines.
Proof.
  intros r. subst r. rewrite dispatchSpecialAction_unfold.
  destruct actionData as [data|data| |data|data|data];
    cbn [handlerCall useSpecialFileActionHandlerMap fmap option_fmap option_map
         forMouseClickFile forKeyboardClickFile forOpenParentFolder
         forOpenFolderChainFolder forDragNDropStart forDragNDropEnd actionId];
    unfold tryCatch, onMouseClickFile, onKeyboardClickFile, onOpenParentFolder,
      onOpenFolderChainFolder, onDragNDropStart, onDragNDropEnd,
      dispatchFileAction, dispatch, getState, selectionSizeRef, parentFolderRef,
      readLastClickDisplayIndex, writeLastClickDisplayIndex, log,
      mbind, M_bind, mret, M_ret;
    repeat (case_match; simplify_eq/=);
    repeat match goal with u : unit |- _ => destruct u end;
    try (eexists [], []; split_and!;
           [by rewrite app_nil_r | done | by constructor]; fail);
    try (eexists [], [_]; split_and!;
           [by rewrite app_nil_r | by rewrite <- app_assoc | by constructor]; fail);
    try (eexists [_], []; split_and!; [done | done | by constructor]; fail);
    try (eexists [_], [_]; split_and!;
           [done | by rewrite <- app_assoc | by constructor]; fail).
Qed.

End HookDispatcher.

(** * Further properties of the registry and of the toolbar *)

(** ** [fileActionMap] *)

(** An action of a list whose ids are pairwise distinct is the only one
    with its id. *)
Lemma unique_by_id (fileActions : list FileAction.t) (a b : FileAction.t) :
  NoDup (FileAction.id <$> fileActions) →
  a ∈ fileActions → b ∈ fileActions → FileAction.id a = FileAction.id b → a = b.
Proof.
  intros Hnodup [i Hi]%list_elem_of_lookup [j Hj]%list_elem_of_lookup Hid.
  assert (i = j) as ->.
  { apply (NoDup_lookup _ i j (FileAction.id a) Hnodup).
    - by rewrite list_lookup_fmap, Hi.
    - by rewrite list_lookup_fmap, Hj, Hid. }
  congruence.
Qed.

Lemma last_filter_Some (fileActions : list FileAction.t)
    (fileActionId : string) (action : FileAction.t) :
  last (filter (λ action, FileAction.id action = fileActionId) fileActions) = Some action →
  FileAction.id action = fileActionId ∧ action ∈ fileActions.
Proof. intros Hlast%last_Some_elem_of. by apply list_elem_of_filter in Hlast. Qed.

(** With pairwise distinct ids, the last action that bears the id of an
    action of the list is this action. *)
Lemma last_filter_unique (fileActions : list FileAction.t) (action : FileAction.t) :
  NoDup (FileAction.id <$> fileActions) →
  action ∈ fileActions →
  last (filter (λ a, FileAction.id a = FileAction.id action) fileActions) = Some action.
Proof.
  intros Hnodup Hin.
  destruct (last (filter _ fileActions)) as [found|] eqn:Hfound.
  - apply last_filter_Some in Hfound as [Hid Hfound].
    f_equal. by apply (unique_by_id fileActions).
  - apply last_filter_None in Hfound. exfalso. apply Hfound.
    by apply list_elem_of_fmap_2.
Qed.

Lemma size_list_to_set_length (ids : list string) :
  (size (list_to_set ids : gset string) ≤ length ids)%nat.
Proof.
  apply submseteq_length, NoDup_submseteq; [apply NoDup_elements|].
  intros fileActionId. by rewrite elem_of_elements, elem_of_list_to_set.
Qed.

Lemma plain_object_eq (o1 o2 : PlainObject.t) :
  PlainObject.own o1 = PlainObject.own o2 →
  PlainObject.proto o1 = PlainObject.proto o2 →
  o1 = o2.
Proof. destruct o1, o2. cbn. by intros -> ->. Qed.

(** X12.  Whatever the list, a read of the registry is accounted for: if it
    gives an action, this action is one of the list and bears the name read
    as its id; if it gives another value, the name is inherited from the
    prototype chain; and it gives nothing only under names that no action
    of the list bears.  The registry has no more keys than the list has
    actions. *)
Theorem X12_file_action_map_is_consistent (fileActions : list FileAction.t) :
  (∀ fileActionId : string,
     match PlainObject.get (fileActionMap fileActions) fileActionId with
     | PlainObject.ReadAction action =>
         FileAction.id action = fileActionId ∧ action ∈ fileActions
     | PlainObject.ReadInherited =>
         fileActionId ∈ PlainObject.inheritedNames (fileActionMap fileActions)
     | PlainObject.ReadUndefined =>
         fileActionId ∉ FileAction.id <$> fileActions
     end)
  ∧ (size (PlainObject.keys (fileActionMap fileActions)) ≤ length fileActions)%nat.
Proof.
  split.
  - intros fileActionId.
    destruct (last (filter (λ a, FileAction.id a = fileActionId) fileActions))
      as [action|] eqn:Hlast.
    + rewrite (fileActionMap_get_last _ _ _ Hlast). by apply last_filter_Some.
    + unfold PlainObject.get. rewrite fileActionMap_own, Hlast.
      assert ((if bool_decide (fileActionId = "__proto__") then None else None)
              = (None : option FileAction.t)) as -> by by case_bool_decide.
      case_bool_decide as Hproto.
      * subst fileActionId. rewrite fileActionMap_proto, Hlast.
        unfold PlainObject.inheritedNames. apply elem_of_app. right.
        unfold ObjectPrototype.names.
        do 11 apply list_elem_of_further. apply list_elem_of_here.
      * case_bool_decide as Hinherited; [done|]. by apply last_filter_None.
  - rewrite fileActionMap_keys.
    etrans; [apply subseteq_size, subseteq_difference_l; reflexivity|].
    etrans; [apply size_list_to_set_length|]. by rewrite length_fmap.
Qed.

(** X13.  The map of two lists put end to end is the map of the second
    list completed by the map of the first: where both define an id, the
    later list wins.  An empty list gives the empty map, and a list put
    after itself changes nothing. *)
Theorem X13_file_action_map_of_appended_lists (earlier later : list FileAction.t) :
  fileActionMap (earlier ++ later) = fileActionMap later ∪ fileActionMap earlier
  ∧ fileActionMap [] = ∅
  ∧ fileActionMap (later ++ later) = fileActionMap later.
Proof.
  assert (∀ l1 l2, fileActionMap (l1 ++ l2) = fileActionMap l2 ∪ fileActionMap l1)
    as Happ.
  { intros l1 l2. apply plain_object_eq.
    - apply map_eq. intros fileActionId. cbn.
      rewrite lookup_union, !fileActionMap_own, filter_app, last_app.
      case_bool_decide; [done|].
      by destruct (last (filter _ l2)), (last (filter _ l1)).
    - cbn. rewrite !fileActionMap_proto, filter_app, last_app.
      by destruct (last (filter _ l2)). }
  split; [apply Happ|]. split; [reflexivity|].
  rewrite Happ. apply plain_object_eq; cbn.
  - apply map_eq. intros fileActionId. rewrite lookup_union.
    by destruct (PlainObject.own (fileActionMap later) !! fileActionId).
  - by destruct (PlainObject.proto (fileActionMap later)).
Qed.

(** X14.  When the ids of the list are pairwise distinct no action is
    hidden by another: a read under the id of any action of the list gives
    this action.  The registry then has one key per action, except that an
    action with the id ["__proto__"] has none. *)
Theorem X14_file_action_map_of_distinct_ids (fileActions : list FileAction.t) :
  NoDup (FileAction.id <$> fileActions) →
  (∀ action : FileAction.t,
     action ∈ fileActions →
     PlainObject.get (fileActionMap fileActions) (FileAction.id action)
     = PlainObject.ReadAction action)
  ∧ size (PlainObject.keys (fileActionMap fileActions))
    = (length fileActions
       - (if bool_decide ("__proto__" ∈ FileAction.id <$> fileActions) then 1 else 0))%nat.
Proof.
  intros Hnodup. split.
  - intros action Hin. by apply fileActionMap_get_last, last_filter_unique.
  - rewrite fileActionMap_keys.
    assert (size (list_to_set (FileAction.id <$> fileActions) : gset string)
            = length fileActions) as Hsize
      by by rewrite size_list_to_set, length_fmap.
    case_bool_decide as Hproto.
    + rewrite size_difference, size_singleton, Hsize; [done|].
      apply singleton_subseteq_l. by apply elem_of_list_to_set.
    + rewrite difference_disjoint_L, Hsize; [lia|].
      apply disjoint_singleton_r. by rewrite elem_of_list_to_set.
Qed.

(** X15.  When the ids are pairwise distinct the order of the list does not
    matter: a permutation of the list gives the same map. *)
Theorem X15_file_action_map_ignores_order (fileActions permuted : list FileAction.t) :
  NoDup (FileAction.id <$> fileActions) →
  fileActions ≡ₚ permuted →
  fileActionMap fileActions = fileActionMap permuted.
Proof.
  intros Hnodup Hperm.
  assert (NoDup (FileAction.id <$> permuted)) as Hnodup' by by rewrite <- Hperm.
  assert (∀ fileActionId,
            last (filter (λ a, FileAction.id a = fileActionId) fileActions)
            = last (filter (λ a, FileAction.id a = fileActionId) permuted)) as Hlast.
  { intros fileActionId.
    destruct (last (filter _ fileActions)) as [action|] eqn:Hfound.
    - apply last_filter_Some in Hfound as [<- Hin].
      symmetry. apply last_filter_unique; [done|]. by rewrite <- Hperm.
    - symmetry. apply last_filter_None. apply last_filter_None in Hfound.
      by rewrite <- Hperm. }
  apply plain_object_eq.
  - apply map_eq. intros fileActionId. by rewrite !fileActionMap_own, Hlast.
  - by rewrite !fileActionMap_proto, Hlast.
Qed.

(** An action with the id ["__proto__"] becomes the prototype of the
    registry: it is read back under this name, it is no key, and its fields
    are then inherited names. *)
Example file_action_map_with_proto_action :
  let open := FileAction.mk "open_files" "Open selection" true in
  let odd := FileAction.mk "__proto__" "Odd" false in
  let registry := fileActionMap [open; odd] in
  PlainObject.get registry "__proto__" = PlainObject.ReadAction odd
  ∧ PlainObject.keys registry = {[ "open_files" ]}
  ∧ PlainObject.get registry "name" = PlainObject.ReadInherited
  ∧ PlainObject.get (fileActionMap [open]) "name" = PlainObject.ReadUndefined
  ∧ PlainObject.get (fileActionMap [open]) "toString" = PlainObject.ReadInherited.
Proof. repeat split; reflexivity. Qed.

(** Without distinct ids the order matters: the later action wins. *)
Example file_action_map_order_matters :
  let first := FileAction.mk "open_files" "Open" true in
  let second := FileAction.mk "open_files" "Open in new tab" false in
  PlainObject.get (fileActionMap [first; second]) "open_files"
  = PlainObject.ReadAction second
  ∧ PlainObject.get (fileActionMap [second; first]) "open_files"
    = PlainObject.ReadAction first
  ∧ size (PlainObject.keys (fileActionMap [first; second])) = 1%nat.
Proof. repeat split; reflexivity. Qed.

(** ** [useFileActionModifiers] *)

Section Modifiers.

Variable ToolbarActions : ChonkyToolbarActionsT.

(** X17.  An action is shown active exactly when it bears the id of the
    toggle-search action and the search bar is visible; the parent folder
    and the selection play no part. *)
Theorem X17_active_means_search_bar_visible
    (action : Nullable FileAction.t) (searchBarVisible : bool)
    (parent : Nullable FileData.t) (selectionSize : nat) :
  FileActionModifiers.active
    (useFileActionModifiers ToolbarActions action searchBarVisible parent selectionSize)
  = true
  ↔ ∃ a : FileAction.t,
      action = Some a
      ∧ FileAction.id a = FileAction.id (ToggleSearch ToolbarActions)
      ∧ searchBarVisible = true.
Proof.
  destruct action as [a|]; cbn.
  - rewrite andb_true_iff, String.eqb_eq. split.
    + intros [Hid Hvisible]. by exists a.
    + by intros (? & [= <-] & Hid & Hvisible).
  - split; [done | by intros (? & ? & _)].
Qed.

(** X18.  An action is disabled exactly when it is unknown, or it requires
    a selection and nothing is selected, or it bears the id of the
    open-parent-folder action and the parent folder is not openable (a
    missing parent folder is not). *)
Theorem X18_disabled_reasons
    (action : Nullable FileAction.t) (searchBarVisible : bool)
    (parent : Nullable FileData.t) (selectionSize : nat) :
  FileActionModifiers.disabled
    (useFileActionModifiers ToolbarActions action searchBarVisible parent selectionSize)
  = true
  ↔ action = None
    ∨ ∃ a : FileAction.t,
        action = Some a
        ∧ ((FileAction.requiresSelection a = true ∧ selectionSize = 0%nat)
           ∨ (FileAction.id a = FileAction.id (OpenParentFolder ToolbarActions)
              ∧ ∀ folder : FileData.t,
                  parent = Some folder → FileData.openable folder = false)).
Proof.
  assert (FileHelper.isOpenable parent = false
          ↔ ∀ folder, parent = Some folder → FileData.openable folder = false)
    as Hparent.
  { destruct parent as [folder|]; cbn.
    - split; [by intros ? ? [= <-] | intros H; by apply H].
    - split; [by intros _ ? ? | done]. }
  destruct action as [a|]; cbn; [|split; [by left | done]].
  setoid_rewrite <- Hparent.
  destruct (String.eqb_spec (FileAction.id a)
              (FileAction.id (OpenParentFolder ToolbarActions))) as [Hid|Hid].
  - rewrite orb_true_iff, andb_true_iff, Nat.eqb_eq, negb_true_iff. split.
    + intros [[? ?]|?]; right; exists a; split; auto.
    + intros [?|(? & [= <-] & [[? ?]|[_ ?]])]; [done|by left|by right].
  - rewrite andb_true_iff, Nat.eqb_eq. split.
    + intros [? ?]. right. exists a. split; auto.
    + intros [?|(? & [= <-] & [[? ?]|[? _]])]; done.
Qed.

(** X19.  Of the selection only its emptiness counts, and selecting files
    never disables an action: the modifiers are the same for any two
    non-empty selections, and an action that is enabled with nothing
    selected is enabled with any selection. *)
Theorem X19_selection_counts_by_emptiness
    (action : Nullable FileAction.t) (searchBarVisible : bool)
    (parent : Nullable FileData.t) (n m : nat) :
  let modifiers := useFileActionModifiers ToolbarActions action searchBarVisible parent in
  ((0 < n)%nat → (0 < m)%nat → modifiers n = modifiers m)
  ∧ (FileActionModifiers.disabled (modifiers 0%nat) = false →
     FileActionModifiers.disabled (modifiers m) = false).
Proof.
  intros modifiers. subst modifiers. split.
  - intros Hn Hm. unfold useFileActionModifiers.
    destruct n, m; [lia..|done].
  - destruct action as [a|]; cbn; [|done].
    destruct m; [done|]. cbn. rewrite !andb_false_r, andb_true_r.
    destruct (String.eqb _ _); [|done].
    by intros [_ ->]%orb_false_iff.
Qed.

(** X20.  The guard of the toolbar is the guard of the handler: when the
    open-parent-folder action is not disabled for the parent folder of the
    store, the request to open the parent folder makes its one call to the
    host, with the Open action of that folder, and the warning is not
    written. *)
Theorem X20_enabled_parent_folder_button_opens
    (ChonkyActions : ChonkyActionsT) (host : FileActionData → Outcome unit)
    (action : FileAction.t) (searchBarVisible : bool) (selectionSize : nat) (w : World) :
  FileAction.id action = FileAction.id (OpenParentFolder ToolbarActions) →
  FileActionModifiers.disabled
    (useFileActionModifiers ToolbarActions (Some action) searchBarVisible
       (selectParentFolder (store w)) selectionSize)
  = false →
  ∃ folder : FileData.t,
    parentFolder (store w) = Some folder
    ∧ onOpenParentFolder ChonkyActions host w
      = (withFileAction w (openAction ChonkyActions folder),
         host (openAction ChonkyActions folder)).
Proof.
  intros Hid. cbn. rewrite Hid, String.eqb_refl.
  intros [_ Hopenable%negb_false_iff]%orb_false_iff.
  unfold onOpenParentFolder. bind_returns.
  unfold selectParentFolder in *. rewrite Hopenable.
  destruct (parentFolder (store w)) as [folder|]; [|done].
  by exists folder.
Qed.

End Modifiers.

(** ** [ToolbarButtonGroup] *)

(** X21.  The group renders one button per action, in the order of the
    actions, and the keys of the buttons are pairwise distinct exactly when
    the names of the actions are: the ids play no part in the keys. *)
Theorem X21_toolbar_button_keys (group : ToolbarButtonGroup) :
  el_fileAction <$> buttonComponents group = tg_fileActions group
  ∧ length (buttonComponents group) = length (tg_fileActions group)
  ∧ (NoDup (el_key <$> buttonComponents group)
     ↔ NoDup (FileAction.name <$> tg_fileActions group)).
Proof.
  unfold buttonComponents. split; [|split].
  - rewrite <- list_fmap_compose. by rewrite list_fmap_id.
  - by rewrite length_fmap.
  - rewrite <- list_fmap_compose.
    change (el_key ∘ _)
      with (String.append "action-button-" ∘ FileAction.name).
    rewrite list_fmap_compose. apply (NoDup_fmap _).
Qed.

(** Two actions with distinct ids and one name get one key. *)
Example toolbar_keys_collide_on_names :
  let group := mkToolbarButtonGroup None None
                 [ FileAction.mk "open_files" "Open" true;
                   FileAction.mk "open_parent_folder" "Open" false ] in
  el_key <$> buttonComponents group = ["action-button-Open"; "action-button-Open"].
Proof. reflexivity. Qed.

(** * The further properties on the concrete instance *)

Lemma X1_plain_click_selects_exclusively_witness :
  let w := Demo.world {[ "A"; "B" ]} (Some 0) in
  FileHelper.isSelectable (Some Demo.C) = true
  ∧ lastClickDisplayIndexRef
      (onMouseClickFile Demo.actions Demo.quietHost
         (mkMouseClick single Demo.C 2 false false) w).1
    = Some 2.
Proof.
  intros w. split; [reflexivity|].
  exact (proj1 (proj2 (proj2 (X1_plain_click_selects_exclusively
                                Demo.actions Demo.quietHost Demo.C 2 w eq_refl)))).
Defined.

Lemma X2_click_on_unselectable_file_witness :
  let w := Demo.world {[ "A"; "B" ]} (Some 0) in
  FileHelper.isSelectable (Some Demo.folder) = false
  ∧ selectionMap
      (store (onMouseClickFile Demo.actions Demo.quietHost
                (mkMouseClick single Demo.folder 4 false true) w).1)
    = ∅.
Proof.
  intros w. split; [reflexivity|].
  exact (proj1 (proj2 (X2_click_on_unselectable_file Demo.actions Demo.quietHost
                         Demo.folder 4 false true w eq_refl))).
Defined.

Lemma X3_ctrl_wins_over_shift_witness :
  let w := Demo.world {[ "A" ]} (Some 0) in
  FileHelper.isSelectable (Some Demo.D) = true
  ∧ lastClickDisplayIndexRef
      (onMouseClickFile Demo.actions Demo.quietHost
         (mkMouseClick single Demo.D 3 true true) w).1
    = Some 3.
Proof.
  intros w. split; [reflexivity|].
  exact (proj1 (proj2 (X3_ctrl_wins_over_shift Demo.actions Demo.quietHost
                         Demo.D 3 w eq_refl))).
Defined.

Lemma X4_single_click_stays_inside_witness :
  let data := mkMouseClick single Demo.D 3 false true in
  let w := Demo.world {[ "A" ]} (Some 0) in
  mc_clickType data = single
  ∧ dispatchedFileActions (onMouseClickFile Demo.actions Demo.throwingHost data w).1
    = dispatchedFileActions w.
Proof.
  intros data w. split; [reflexivity|].
  exact (proj1 (proj2 (X4_single_click_stays_inside Demo.actions Demo.throwingHost
                         data w eq_refl))).
Defined.

Lemma X5_keyboard_space_witness :
  let data := mkKeyboardClick Demo.B 1 false true true in
  let w := Demo.world {[ "A"; "C" ]} None in
  kc_enterKey data = false
  ∧ lastClickDisplayIndexRef
      (onKeyboardClickFile Demo.actions Demo.quietHost data w).1
    = Some 1.
Proof.
  intros data w. split; [reflexivity|].
  exact (proj1 (proj2 (X5_keyboard_space Demo.actions Demo.quietHost
                         data w eq_refl))).
Defined.

Lemma X6_keyboard_click_anchors_range_witness :
  let data := mkKeyboardClick Demo.B 1 true false false in
  let w := Demo.world ∅ None in
  FileHelper.isSelectable (Some Demo.D) = true
  ∧ lastClickDisplayIndexRef
      (onKeyboardClickFile Demo.actions Demo.throwingHost data w).1
    = Some 1.
Proof.
  intros data w. split; [reflexivity|].
  exact (proj1 (X6_keyboard_click_anchors_range Demo.actions Demo.throwingHost
                  data Demo.D 3 w eq_refl)).
Defined.

Lemma X8_drag_of_unselected_file_carries_it_alone_witness :
  let w := Demo.world {[ "A"; "C" ]} None in
  getIsFileSelected (store w) (Some Demo.B) = false
  ∧ ∃ action : FileActionData,
      dispatchedFileActions
        (onDragNDropEnd Demo.actions Demo.quietHost
           (mkDragNDropEnd Demo.B Demo.folder "move")
           (onDragNDropStart (mkDragNDropStart Demo.B) w).1).1
      = dispatchedFileActions w ++ [action]
      ∧ fa_files action = [Demo.B]
      ∧ fa_target action = Demo.folder.
Proof.
  intros w. split; [reflexivity|].
  exact (X8_drag_of_unselected_file_carries_it_alone Demo.actions Demo.quietHost
           Demo.B Demo.folder "move" w eq_refl).
Defined.

Lemma X9_drop_target_is_not_dropped_witness :
  let data := mkDragNDropEnd Demo.A Demo.folder "copy" in
  let w := Demo.world {[ "A"; "B" ]} None in
  let action := dropAction Demo.actions data (store w) in
  FileData.id Demo.A ≠ FileData.id Demo.folder
  ∧ action ∈ drop (length (dispatchedFileActions w))
               (dispatchedFileActions
                  (onDragNDropEnd Demo.actions Demo.quietHost data w).1)
  ∧ ∀ file : FileData.t,
      file ∈ fa_files action → FileData.id file ≠ FileData.id (fa_target action).
Proof.
  intros data w action.
  assert (FileData.id Demo.A ≠ FileData.id Demo.folder) as Hdistinct by discriminate.
  assert (action ∈ drop (length (dispatchedFileActions w))
                     (dispatchedFileActions
                        (onDragNDropEnd Demo.actions Demo.quietHost data w).1))
    as Haction by apply list_elem_of_here.
  split; [exact Hdistinct|]. split; [exact Haction|].
  exact (X9_drop_target_is_not_dropped Demo.actions Demo.quietHost data w action
           Hdistinct Haction).
Defined.

Lemma X10_dragged_file_is_dropped_witness :
  let w := Demo.world {[ "A"; "B"; "C" ]} None in
  Some Demo.B ∈ rawFiles (store w)
  ∧ FileData.draggable Demo.B = true
  ∧ getIsFileSelected
      (store (onDragNDropStart (mkDragNDropStart Demo.B) w).1) (Some Demo.folder)
    = false
  ∧ ∃ action : FileActionData,
      dispatchedFileActions
        (onDragNDropEnd Demo.actions Demo.quietHost
           (mkDragNDropEnd Demo.B Demo.folder "move")
           (onDragNDropStart (mkDragNDropStart Demo.B) w).1).1
      = dispatchedFileActions w ++ [action]
      ∧ Demo.B ∈ fa_files action.
Proof.
  intros w.
  assert (Some Demo.B ∈ rawFiles (store w)) as Hpresent
    by (apply list_elem_of_further, list_elem_of_here).
  split; [exact Hpresent|]. split; [reflexivity|]. split; [reflexivity|].
  exact (X10_dragged_file_is_dropped Demo.actions Demo.quietHost
           Demo.B Demo.folder "move" w Hpresent eq_refl eq_refl).
Defined.

Lemma X14_file_action_map_of_distinct_ids_witness :
  let fileActions := [OpenFiles Demo.actions; MoveFilesTo Demo.actions] in
  NoDup (FileAction.id <$> fileActions)
  ∧ size (PlainObject.keys (fileActionMap fileActions))
    = (length fileActions
       - (if bool_decide ("__proto__" ∈ FileAction.id <$> fileActions) then 1 else 0))%nat.
Proof.
  intros fileActions.
  assert (NoDup (FileAction.id <$> fileActions)) as Hnodup
    by (apply (bool_decide_unpack _); vm_compute; exact I).
  split; [exact Hnodup|].
  exact (proj2 (X14_file_action_map_of_distinct_ids fileActions Hnodup)).
Defined.

Lemma X15_file_action_map_ignores_order_witness :
  let fileActions := [OpenFiles Demo.actions; MoveFilesTo Demo.actions] in
  let permuted := [MoveFilesTo Demo.actions; OpenFiles Demo.actions] in
  NoDup (FileAction.id <$> fileActions)
  ∧ fileActions ≡ₚ permuted
  ∧ fileActionMap fileActions = fileActionMap permuted.
Proof.
  intros fileActions permuted.
  assert (NoDup (FileAction.id <$> fileActions)) as Hnodup
    by (apply (bool_decide_unpack _); vm_compute; exact I).
  assert (fileActions ≡ₚ permuted) as Hperm by apply perm_swap.
  split; [exact Hnodup|]. split; [exact Hperm|].
  exact (X15_file_action_map_ignores_order fileActions permuted Hnodup Hperm).
Defined.

Lemma X20_enabled_parent_folder_button_opens_witness :
  let openParentFolder := FileAction.mk "open_parent_folder" "Go up a directory" false in
  let toolbar := mkChonkyToolbarActions
                   (FileAction.mk "toggle_search" "Search" false) openParentFolder in
  let w := Demo.world {[ "A" ]} None in
  FileActionModifiers.disabled
    (useFileActionModifiers toolbar (Some openParentFolder) false
       (selectParentFolder (store w)) 1)
  = false
  ∧ ∃ folder : FileData.t,
      parentFolder (store w) = Some folder
      ∧ onOpenParentFolder Demo.actions Demo.quietHost w
        = (withFileAction w (openAction Demo.actions folder),
           Demo.quietHost (openAction Demo.actions folder)).
Proof.
  intros openParentFolder toolbar w. split; [reflexivity|].
  exact (X20_enabled_parent_folder_button_opens toolbar Demo.actions Demo.quietHost
           openParentFolder false 1 w eq_refl eq_refl).
Defined.
